(** * FilePluginController: a shallow embedding of [src/controller/controller.ts]

    The controller glues DOM events of a file-picker widget to a bound
    [File | null] value.  The embedding keeps the shape of the TypeScript:

    - [isFileValid] is a pure function of the configuration and the file;
    - the handlers ([onFile], [onDrop], [onDeleteClick], ...) are state
      transformers over a record holding the bound value and the DOM
      properties the controller reads and writes;
    - a handler either returns or throws a DOM exception, so handlers that
      can reach [removeChild] produce a [Completion];
    - [setTimeout] appends to a timer queue that an explicit event-loop
      step drains against a logical clock (milliseconds);
    - [addEventListener]/[removeEventListener] act on a listener table.

    File names are [string]s.  JavaScript's [toLowerCase] is kept abstract
    (a section variable), so every general statement holds for whatever
    case folding the engine applies; [toLowerCaseAscii] instantiates it for
    the concrete evaluations. *)

From Stdlib Require Import String Ascii List Bool Arith NArith Lia.
Import ListNotations.
Open Scope string_scope.
Open Scope nat_scope.

(* ------------------------------------------------------------------ *)
(** ** Strings and arrays, as the JavaScript built-ins behave          *)
(* ------------------------------------------------------------------ *)

(** [String.prototype.split] with a one-character separator.  The result
    is never empty: a string without the separator is returned whole, and
    the empty string yields one empty segment. *)
Fixpoint split (sep : ascii) (s : string) : list string :=
  match s with
  | EmptyString => [EmptyString]
  | String c r =>
      if Ascii.eqb c sep then EmptyString :: split sep r
      else match split sep r with
           | seg :: segs => String c seg :: segs
           | [] => [String c EmptyString]
           end
  end.

(** [Array.prototype.pop], used for its result only: the last element, or
    [undefined] ([None]) on an empty array. *)
Fixpoint pop {A : Type} (l : list A) : option A :=
  match l with
  | [] => None
  | [x] => Some x
  | _ :: r => pop r
  end.

(** [Array.prototype.includes] on strings. *)
Definition includes (l : list string) (s : string) : bool :=
  existsb (String.eqb s) l.

(** Truthiness of a JavaScript string: everything but the empty string. *)
Definition truthy (s : string) : bool :=
  match s with
  | EmptyString => false
  | String _ _ => true
  end.

(** ASCII case folding, the instance of [toLowerCase] used in examples. *)
Definition lowerAscii (c : ascii) : ascii :=
  let n := nat_of_ascii c in
  if (65 <=? n) && (n <=? 90) then ascii_of_nat (n + 32) else c.

Fixpoint toLowerCaseAscii (s : string) : string :=
  match s with
  | EmptyString => EmptyString
  | String c r => String (lowerAscii c) (toLowerCaseAscii r)
  end.

(** Whether a name holds the character ['.'] at all. *)
Fixpoint hasDot (s : string) : bool :=
  match s with
  | EmptyString => false
  | String c r => Ascii.eqb c "." || hasDot r
  end.

(** The text after the last ['.'] of a name; [None] when there is no dot. *)
Fixpoint afterLastDot (s : string) : option string :=
  match s with
  | EmptyString => None
  | String c r =>
      match afterLastDot r with
      | Some e => Some e
      | None => if Ascii.eqb c "." then Some r else None
      end
  end.

(* ------------------------------------------------------------------ *)
(** ** Data model                                                      *)
(* ------------------------------------------------------------------ *)

(** A [File]: the controller reads its [name] only.  [uid] stands for the
    identity of the JavaScript object (two files may share a name). *)
Record File : Type := mkFile { name : string; uid : nat }.

(** The part of [Config] that is plain data; [value] and [viewProps] live
    in the controller state below. *)
Record Config : Type := mkConfig {
  lineCount : nat;
  filetypes : option (list string)
}.

Section Validation.

Variable toLowerCase : string -> string.

(** ['.' + file.name.split('.').pop()?.toLowerCase()].  A missing last
    segment would give ['.' + undefined], the string [".undefined"]. *)
Definition fileExtension (file : File) : string :=
  "." ++ match pop (split "." (name file)) with
         | Some seg => toLowerCase seg
         | None => "undefined"
         end.

(** [isFileValid], lines 84-93. *)
Definition isFileValid (config : Config) (file : File) : bool :=
  negb match filetypes config with
       | Some ft =>
           (0 <? List.length ft)
           && negb (includes ft (fileExtension file))
           && truthy (fileExtension file)
       | None => false
       end.

(** The extension as the specification words it: present only when the
    name holds a dot, then the lowercased text after the last dot with a
    leading dot. *)
Definition specExtension (file : File) : option string :=
  match afterLastDot (name file) with
  | Some e => Some ("." ++ toLowerCase e)
  | None => None
  end.

(** [isFileValid] as the specification words it: false exactly when the
    allow-list is non-empty, an extension is extractable and that
    extension is not in the list. *)
Definition specIsFileValid (config : Config) (file : File) : bool :=
  match filetypes config, specExtension file with
  | Some (t :: ts), Some e => includes (t :: ts) e
  | _, _ => true
  end.

End Validation.

(* ------------------------------------------------------------------ *)
(** ** Controller state                                                *)
(* ------------------------------------------------------------------ *)

(** The nodes the controller moves in and out of [view.container].  They
    are leaves, each either a direct child of the container or detached,
    so [Node.contains] and "is a child of" coincide on them. *)
Inductive Node : Type := InputNode | FileIconNode | TextNode.

Definition Node_eqb (a b : Node) : bool :=
  match a, b with
  | InputNode, InputNode | FileIconNode, FileIconNode | TextNode, TextNode => true
  | _, _ => false
  end.

(** The only deferred callback of the program: the arrow function that
    [showWarning] hands to [setTimeout]. *)
Inductive TimerCallback : Type := DismissWarning.

Definition Timer : Type := (N * TimerCallback)%type.

(** What the controller reads and writes: the bound value, the DOM
    properties of the view's elements, and the pending timers with the
    logical clock (in milliseconds) they are measured against. *)
Record State : Type := mkState {
  rawValue : option File;             (* this.value.rawValue *)
  inputFiles : option (list File);    (* this.view.input.files *)
  inputValue : string;                (* this.view.input.value *)
  containerChildren : list Node;      (* children of this.view.container *)
  textContent : string;               (* this.view.text.textContent *)
  warningInnerHTML : string;          (* this.view.warning.innerHTML *)
  warningDisplay : string;            (* this.view.warning.style.display *)
  deleteButtonDisplay : string;       (* this.view.deleteButton.style.display *)
  containerBorder : string;           (* this.view.container.style.border *)
  dragging : bool;                    (* the view's dragging state *)
  clock : N;
  timers : list Timer
}.

Definition set_rawValue (v : option File) (s : State) : State :=
  mkState v (inputFiles s) (inputValue s) (containerChildren s)
          (textContent s) (warningInnerHTML s) (warningDisplay s)
          (deleteButtonDisplay s) (containerBorder s) (dragging s)
          (clock s) (timers s).

Definition set_input (fs : option (list File)) (v : string) (s : State) : State :=
  mkState (rawValue s) fs v (containerChildren s)
          (textContent s) (warningInnerHTML s) (warningDisplay s)
          (deleteButtonDisplay s) (containerBorder s) (dragging s)
          (clock s) (timers s).

Definition set_containerChildren (l : list Node) (s : State) : State :=
  mkState (rawValue s) (inputFiles s) (inputValue s) l
          (textContent s) (warningInnerHTML s) (warningDisplay s)
          (deleteButtonDisplay s) (containerBorder s) (dragging s)
          (clock s) (timers s).

Definition set_textContent (t : string) (s : State) : State :=
  mkState (rawValue s) (inputFiles s) (inputValue s) (containerChildren s)
          t (warningInnerHTML s) (warningDisplay s)
          (deleteButtonDisplay s) (containerBorder s) (dragging s)
          (clock s) (timers s).

Definition set_warningInnerHTML (t : string) (s : State) : State :=
  mkState (rawValue s) (inputFiles s) (inputValue s) (containerChildren s)
          (textContent s) t (warningDisplay s)
          (deleteButtonDisplay s) (containerBorder s) (dragging s)
          (clock s) (timers s).

Definition set_warningDisplay (d : string) (s : State) : State :=
  mkState (rawValue s) (inputFiles s) (inputValue s) (containerChildren s)
          (textContent s) (warningInnerHTML s) d
          (deleteButtonDisplay s) (containerBorder s) (dragging s)
          (clock s) (timers s).

Definition set_deleteButtonDisplay (d : string) (s : State) : State :=
  mkState (rawValue s) (inputFiles s) (inputValue s) (containerChildren s)
          (textContent s) (warningInnerHTML s) (warningDisplay s)
          d (containerBorder s) (dragging s)
          (clock s) (timers s).

Definition set_containerBorder (b : string) (s : State) : State :=
  mkState (rawValue s) (inputFiles s) (inputValue s) (containerChildren s)
          (textContent s) (warningInnerHTML s) (warningDisplay s)
          (deleteButtonDisplay s) b (dragging s)
          (clock s) (timers s).

Definition set_clock (c : N) (s : State) : State :=
  mkState (rawValue s) (inputFiles s) (inputValue s) (containerChildren s)
          (textContent s) (warningInnerHTML s) (warningDisplay s)
          (deleteButtonDisplay s) (containerBorder s) (dragging s)
          c (timers s).

Definition set_timers (q : list Timer) (s : State) : State :=
  mkState (rawValue s) (inputFiles s) (inputValue s) (containerChildren s)
          (textContent s) (warningInnerHTML s) (warningDisplay s)
          (deleteButtonDisplay s) (containerBorder s) (dragging s)
          (clock s) q.

(** Modelled from the spec: [view.changeDraggingState] (the view class is
    not among the sources), "a draggable-state toggle" that the controller
    sets to active or inactive. *)
Definition changeDraggingState (active : bool) (s : State) : State :=
  mkState (rawValue s) (inputFiles s) (inputValue s) (containerChildren s)
          (textContent s) (warningInnerHTML s) (warningDisplay s)
          (deleteButtonDisplay s) (containerBorder s) active
          (clock s) (timers s).

(** [input.value = ''] on a file input: the value becomes the empty string
    and the list of selected files is emptied. *)
Definition resetInput (s : State) : State :=
  set_input (option_map (fun _ => []) (inputFiles s)) "" s.

(* ------------------------------------------------------------------ *)
(** ** Completions: a handler returns or throws                        *)
(* ------------------------------------------------------------------ *)

Inductive DOMException : Type := NotFoundError.

(** The outcome of running a handler: the state it returned with, or the
    exception it threw together with the state reached by then. *)
Inductive Completion : Type :=
| Normal (s : State)
| Throw (e : DOMException) (s : State).

Definition bind (c : Completion) (k : State -> Completion) : Completion :=
  match c with
  | Normal s => k s
  | Throw e s => Throw e s
  end.

Notation "c >>= k" := (bind c k) (at level 50, left associativity).

(** The state a completion ends in, thrown or not. *)
Definition finalState (c : Completion) : State :=
  match c with
  | Normal s => s
  | Throw _ s => s
  end.

(* ------------------------------------------------------------------ *)
(** ** DOM operations on the container                                 *)
(* ------------------------------------------------------------------ *)

Definition without (n : Node) (l : list Node) : list Node :=
  filter (fun m => negb (Node_eqb n m)) l.

(** [containerEl.contains(n)]. *)
Definition contains (n : Node) (s : State) : bool :=
  existsb (Node_eqb n) (containerChildren s).

(** [containerEl.appendChild(n)]: the node becomes the last child; a node
    that already is a child is moved, not duplicated. *)
Definition appendChild (n : Node) (s : State) : State :=
  set_containerChildren (without n (containerChildren s) ++ [n])%list s.

(** [containerEl.removeChild(n)]: throws [NotFoundError] when [n] is not
    a child of the container. *)
Definition removeChild (n : Node) (s : State) : Completion :=
  if contains n s
  then Normal (set_containerChildren (without n (containerChildren s)) s)
  else Throw NotFoundError s.

(* ------------------------------------------------------------------ *)
(** ** Timers                                                          *)
(* ------------------------------------------------------------------ *)

(** [setTimeout(cb, delay)]: one more pending timer, due [delay]
    milliseconds from now.  Nothing is ever cancelled. *)
Definition setTimeout (cb : TimerCallback) (delay : N) (s : State) : State :=
  set_timers (timers s ++ [((clock s + delay)%N, cb)])%list s.

(** Body of the arrow function of lines 77-81. *)
Definition runCallback (cb : TimerCallback) (s : State) : State :=
  match cb with
  | DismissWarning => set_warningDisplay "none" (set_warningInnerHTML "" s)
  end.

Definition due (now : N) (t : Timer) : bool := (fst t <=? now)%N.

Fixpoint fire (now : N) (q : list Timer) (s : State) : State :=
  match q with
  | [] => s
  | t :: q' => fire now q' (if due now t then runCallback (snd t) s else s)
  end.

(** One turn of the event loop: every timer that is due runs, in the
    order it was scheduled, and leaves the queue. *)
Definition runTimers (s : State) : State :=
  let q := timers s in
  fire (clock s) q (set_timers (filter (fun t => negb (due (clock s) t)) q) s).

(** [ms] milliseconds pass, then the event loop runs the due timers. *)
Definition elapse (ms : N) (s : State) : State :=
  runTimers (set_clock (clock s + ms)%N s).

(* ------------------------------------------------------------------ *)
(** ** The handlers of the controller                                  *)
(* ------------------------------------------------------------------ *)

(** The payload of a drop: [ev.dataTransfer], whose [files] the handler
    tests before use. *)
Record DataTransfer : Type := mkDataTransfer { files : option (list File) }.

(** The event handed to [onDrop]: a [DragEvent] with its [dataTransfer]
    (possibly [null]), or an event of another class. *)
Inductive DomEvent : Type :=
| DragEvent (dataTransfer : option DataTransfer)
| OtherEvent.

(** [===] on file objects: the same object, not merely the same name. *)
Definition File_eqb (a b : File) : bool :=
  String.eqb (name a) (name b) && (uid a =? uid b).

(** The default of the host's [Value]: ['change'] is emitted only when the
    raw value differs from the previous one. *)
Definition emitsOnChange (prev next : option File) : bool :=
  match prev, next with
  | None, None => false
  | Some a, Some b => negb (File_eqb a b)
  | _, _ => true
  end.

Section Controller.

Variable toLowerCase : string -> string.

(** The host toolkit's policy for change notifications: [emits prev next]
    tells whether [setRawValue] emits ['change'] when the raw value goes
    from [prev] to [next].  [emitsOnChange] is the toolkit's default; a
    caller of the host API may also force the emission. *)
Variable emits : option File -> option File -> bool.

Variable config : Config.

(** [handleValueChange], lines 145-186. *)
Definition handleValueChange (s : State) : Completion :=
  match rawValue s with
  | Some fileObj =>
      let s := set_textContent (name fileObj) s in
      let s := appendChild TextNode s in
      (if contains FileIconNode s then removeChild FileIconNode s
       else Normal s) >>= fun s =>
      let s := set_warningInnerHTML "" s in
      let s := set_warningDisplay "none" s in
      let s := set_deleteButtonDisplay "block" s in
      Normal (set_containerBorder "unset" s)
  | None =>
      let s := set_textContent "" s in
      let s := appendChild FileIconNode s in
      removeChild TextNode s >>= fun s =>
      let s := set_warningInnerHTML "" s in
      let s := set_warningDisplay "none" s in
      let s := set_deleteButtonDisplay "none" s in
      Normal (set_containerBorder "1px dashed #717070" s)
  end.

(** [this.value.setRawValue(v)] on a constructed controller: the value is
    stored and, when the host emits ['change'], the subscription of line
    56 runs [handleValueChange] before [setRawValue] returns; what the
    subscriber throws propagates to the caller. *)
Definition setRawValue (v : option File) (s : State) : Completion :=
  let prev := rawValue s in
  let s := set_rawValue v s in
  if emits prev v then handleValueChange s else Normal s.

(** [showWarning], lines 74-82. *)
Definition showWarning (s : State) : State :=
  let s := set_warningDisplay "block" s in
  let s := set_warningInnerHTML "Unaccepted file type." s in
  setTimeout DismissWarning 5000%N s.

(** The branch shared by [onFile] and [onDrop], lines 66-70 and 132-136. *)
Definition validateThenCommit (file : File) (s : State) : Completion :=
  if negb (isFileValid toLowerCase config file)
  then Normal (showWarning s)
  else setRawValue (Some file) s.

(** [onFile], lines 59-72.  The event itself is not read: the file list
    is that of [view.input]. *)
Definition onFile (s : State) : Completion :=
  match inputFiles s with
  | Some (file :: _) => validateThenCommit file s
  | Some [] => Normal s
  | None => Normal s
  end.

(** [onDeleteClick], lines 95-109. *)
Definition onDeleteClick (s : State) : Completion :=
  match rawValue s with
  | Some _ =>
      setRawValue None s >>= fun s =>
      let s := resetInput s in
      let s := set_warningInnerHTML "" s in
      Normal (set_warningDisplay "none" s)
  | None => Normal s
  end.

(** [onDragOver] and [onDragLeave], lines 111-118.  [preventDefault]
    acts on the event and the browser, not on the controller. *)
Definition onDragOver (s : State) : Completion :=
  Normal (changeDraggingState true s).

Definition onDragLeave (s : State) : Completion :=
  Normal (changeDraggingState false s).

(** [onDrop], lines 120-143. *)
Definition onDrop (ev : DomEvent) (s : State) : Completion :=
  match ev with
  | DragEvent (Some dt) =>
      match files dt with
      | Some filesArray =>
          if List.length filesArray =? 1 then
            match nth_error filesArray 0 with
            | Some file => validateThenCommit file s
            | None => Normal s
            end
          else Normal s
      | None => Normal s
      end
  | DragEvent None => Normal s
  | OtherEvent => Normal s
  end >>= fun s =>
  Normal (changeDraggingState false s).

End Controller.

(* ------------------------------------------------------------------ *)
(** ** Event wiring                                                    *)
(* ------------------------------------------------------------------ *)

(** The elements the constructor attaches listeners to. *)
Inductive Target : Type :=
| ViewInput          (* this.view.input *)
| ViewElement        (* this.view.element *)
| ViewDeleteButton.  (* this.view.deleteButton *)

(** The bound methods of lines 37-41. *)
Inductive Handler : Type :=
| OnFile | OnDrop | OnDragOver | OnDragLeave | OnDeleteClick.

Definition Listener : Type := (Target * string * Handler)%type.

Definition Target_eqb (a b : Target) : bool :=
  match a, b with
  | ViewInput, ViewInput | ViewElement, ViewElement
  | ViewDeleteButton, ViewDeleteButton => true
  | _, _ => false
  end.

Definition Handler_eqb (a b : Handler) : bool :=
  match a, b with
  | OnFile, OnFile | OnDrop, OnDrop | OnDragOver, OnDragOver
  | OnDragLeave, OnDragLeave | OnDeleteClick, OnDeleteClick => true
  | _, _ => false
  end.

Definition Listener_eqb (a b : Listener) : bool :=
  match a, b with
  | (t1, e1, h1), (t2, e2, h2) =>
      Target_eqb t1 t2 && String.eqb e1 e2 && Handler_eqb h1 h2
  end.

(** [target.addEventListener(type, handler)]: a listener already present
    for the same target, type and callback is not added twice. *)
Definition addEventListener (t : Target) (type : string) (h : Handler)
    (tbl : list Listener) : list Listener :=
  if existsb (Listener_eqb (t, type, h)) tbl then tbl
  else (tbl ++ [(t, type, h)])%list.

(** [target.removeEventListener(type, handler)]. *)
Definition removeEventListener (t : Target) (type : string) (h : Handler)
    (tbl : list Listener) : list Listener :=
  filter (fun l => negb (Listener_eqb (t, type, h) l)) tbl.

(** Lines 43-47 of the constructor. *)
Definition bindListeners (tbl : list Listener) : list Listener :=
  let tbl := addEventListener ViewInput "change" OnFile tbl in
  let tbl := addEventListener ViewElement "drop" OnDrop tbl in
  let tbl := addEventListener ViewElement "dragover" OnDragOver tbl in
  let tbl := addEventListener ViewElement "dragleave" OnDragLeave tbl in
  addEventListener ViewDeleteButton "click" OnDeleteClick tbl.

(** The callback given to [viewProps.handleDispose], lines 49-54. *)
Definition disposeCallback (tbl : list Listener) : list Listener :=
  let tbl := removeEventListener ViewInput "change" OnFile tbl in
  let tbl := removeEventListener ViewElement "drop" OnDrop tbl in
  let tbl := removeEventListener ViewElement "dragover" OnDragOver tbl in
  removeEventListener ViewElement "dragleave" OnDragLeave tbl.

(** The handlers an event of [type] on [t] reaches, in registration order. *)
Definition listenersFor (t : Target) (type : string) (tbl : list Listener)
    : list Handler :=
  map snd
      (filter (fun l => Target_eqb t (fst (fst l)) && String.eqb type (snd (fst l)))
              tbl).

Section Dispatch.

Variable toLowerCase : string -> string.
Variable emits : option File -> option File -> bool.
Variable config : Config.

Definition runHandler (h : Handler) (ev : DomEvent) (s : State) : Completion :=
  match h with
  | OnFile => onFile toLowerCase emits config s
  | OnDrop => onDrop toLowerCase emits config ev s
  | OnDragOver => onDragOver s
  | OnDragLeave => onDragLeave s
  | OnDeleteClick => onDeleteClick emits s
  end.

(** Dispatch of an event to the listeners registered for it.  An
    exception in one listener is reported by the browser and does not
    keep the following listeners from running. *)
Definition dispatchEvent (tbl : list Listener) (t : Target) (type : string)
    (ev : DomEvent) (s : State) : State :=
  fold_left (fun s h => finalState (runHandler h ev s))
            (listenersFor t type tbl) s.

End Dispatch.

(* ------------------------------------------------------------------ *)
(** ** View states                                                     *)
(* ------------------------------------------------------------------ *)

(** The view a bound file asks for. *)
Definition showsFile (file : File) (s : State) : Prop :=
  textContent s = name file /\
  In TextNode (containerChildren s) /\
  ~ In FileIconNode (containerChildren s) /\
  warningInnerHTML s = "" /\ warningDisplay s = "none" /\
  deleteButtonDisplay s = "block" /\
  containerBorder s = "unset".

(** The view the value [null] asks for. *)
Definition showsEmpty (s : State) : Prop :=
  textContent s = "" /\
  In FileIconNode (containerChildren s) /\
  ~ In TextNode (containerChildren s) /\
  warningInnerHTML s = "" /\ warningDisplay s = "none" /\
  deleteButtonDisplay s = "none" /\
  containerBorder s = "1px dashed #717070".

(** The text element is attached whenever a file is bound: what every
    notification with a file establishes, and what the [null] branch of
    [handleValueChange] relies on. *)
Definition inSync (s : State) : Prop :=
  rawValue s <> None -> In TextNode (containerChildren s).

(** A file used in the examples. *)
Definition photo : File := mkFile "photo.png" 1.

(** The empty layout of the view, for the examples: the container holds
    the input and the icon, the text element is detached, nothing is
    shown or pending. *)
Definition emptyLayout (v : option File) : State :=
  mkState v (Some []) "" [InputNode; FileIconNode] "" "" "none" "none"
          "1px dashed #717070" false 0%N [].

(** A configuration that accepts [.png] files only, and two more files,
    for the examples. *)
Definition pngOnly : Config := mkConfig 1 (Some [".png"]).
Definition notes : File := mkFile "notes.txt" 2.
Definition scan : File := mkFile "Scan.PNG" 3.

(** What a browser reports as the value of a file input: the name of the
    file behind a fixed fake directory. *)
Definition fakepath (file : File) : string :=
  let backslash := String (ascii_of_nat 92) EmptyString in
  "C:" ++ backslash ++ "fakepath" ++ backslash ++ name file.

(** The user has picked [file] in the input's dialog. *)
Definition pick (file : File) (s : State) : State :=
  set_input (Some [file]) (fakepath file) s.

(** The layout that shows a bound file, for the examples. *)
Definition fileLayout (file : File) : State :=
  mkState (Some file) (Some [file]) (fakepath file)
          [InputNode; TextNode] (name file) "" "none" "block" "unset"
          false 0%N [].

(* ------------------------------------------------------------------ *)
(** ** Names, allow-list entries and runs of the controller            *)
(* ------------------------------------------------------------------ *)

(** An ASCII capital letter. *)
Definition isUpper (c : ascii) : bool :=
  let n := nat_of_ascii c in (65 <=? n) && (n <=? 90).

Fixpoint hasUpper (s : string) : bool :=
  match s with
  | EmptyString => false
  | String c r => isUpper c || hasUpper r
  end.

(** The shape of every extension [isFileValid] looks up under ASCII case
    folding: a dot, then text with no further dot and no capital. *)
Definition extensionShaped (entry : string) : bool :=
  match entry with
  | String c rest => Ascii.eqb c "." && negb (hasDot rest) && negb (hasUpper rest)
  | EmptyString => false
  end.

(** The same file object under another name. *)
Definition renamed (n : string) (file : File) : File := mkFile n (uid file).

(** The warning shows nothing. *)
Definition warningHidden (s : State) : Prop :=
  warningInnerHTML s = "" /\ warningDisplay s = "none".

(** Container, text, delete button and border agree with the bound
    value: the part of the view that [handleValueChange] lays out, without
    the warning, which [showWarning] changes on its own. *)
Definition layoutMatches (s : State) : Prop :=
  match rawValue s with
  | Some file =>
      textContent s = name file /\
      In TextNode (containerChildren s) /\
      ~ In FileIconNode (containerChildren s) /\
      deleteButtonDisplay s = "block" /\
      containerBorder s = "unset"
  | None =>
      textContent s = "" /\
      In FileIconNode (containerChildren s) /\
      ~ In TextNode (containerChildren s) /\
      deleteButtonDisplay s = "none" /\
      containerBorder s = "1px dashed #717070"
  end.

(** A warning on screen has a dismissal ahead: some timer is pending
    whenever the warning is not hidden, and no pending timer is due later
    than 5000 ms from now. *)
Definition dismissalPending (s : State) : Prop :=
  (warningHidden s \/ timers s <> []) /\
  (forall t, In t (timers s) -> (fst t <= clock s + 5000)%N).

(** What can happen to a constructed controller between two turns of the
    event loop. *)
Inductive Action : Type :=
| Dispatch (h : Handler) (ev : DomEvent)  (* an event reaches a bound handler *)
| Pick (file : File)                      (* the user chooses a file in the dialog *)
| Wait (ms : N)                           (* time passes, due timers fire *)
| SetValue (v : option File).             (* other code calls value.setRawValue *)

Section Runs.

Variable toLowerCase : string -> string.
Variable emits : option File -> option File -> bool.
Variable config : Config.

Definition runAction (a : Action) (s : State) : Completion :=
  match a with
  | Dispatch h ev => runHandler toLowerCase emits config h ev s
  | Pick file => Normal (pick file s)
  | Wait ms => Normal (elapse ms s)
  | SetValue v => setRawValue emits v s
  end.

(** A run of actions, up to the first exception. *)
Fixpoint runActions (l : list Action) (s : State) : Completion :=
  match l with
  | [] => Normal s
  | a :: l' => runAction a s >>= runActions l'
  end.

End Runs.

(* ------------------------------------------------------------------ *)
(** ** Facts about [split] and [pop]                                   *)
(* ------------------------------------------------------------------ *)

Lemma split_nonempty (sep : ascii) (s : string) : split sep s <> [].
Proof.
  destruct s as [|c r]; simpl; [discriminate|].
  destruct (Ascii.eqb c sep); [discriminate|].
  destruct (split sep r); discriminate.
Qed.

Lemma pop_cons {A : Type} (x y : A) (l : list A) :
  pop (x :: y :: l) = pop (y :: l).
Proof. reflexivity. Qed.

Lemma pop_some {A : Type} (l : list A) : l <> [] -> exists x, pop l = Some x.
Proof.
  induction l as [|x [|y l] IH]; intros H.
  - contradiction.
  - exists x; reflexivity.
  - rewrite pop_cons. apply IH. discriminate.
Qed.

(** A name without a dot is a single segment: [pop] returns it whole. *)
Lemma split_no_dot (s : string) : hasDot s = false -> split "." s = [s].
Proof.
  induction s as [|c r IH]; simpl; intros H; [reflexivity|].
  apply orb_false_iff in H as [Hc Hr].
  rewrite Hc, (IH Hr). reflexivity.
Qed.

Lemma afterLastDot_none (s : string) :
  afterLastDot s = None <-> hasDot s = false.
Proof.
  induction s as [|c r IH]; simpl; [tauto|].
  destruct (afterLastDot r) as [e|].
  - split; [discriminate|].
    intros H. apply orb_false_iff in H as [_ Hr].
    apply IH in Hr. discriminate.
  - destruct (Ascii.eqb c "."); simpl.
    + split; discriminate.
    + split; intros _; [apply IH|]; reflexivity.
Qed.

Lemma split_single (s seg : string) :
  split "." s = [seg] -> hasDot s = false.
Proof.
  revert seg. induction s as [|c r IH]; simpl; intros seg H; [reflexivity|].
  destruct (Ascii.eqb c ".") eqn:Ec; simpl.
  - injection H as _ H. exfalso. exact (split_nonempty _ _ H).
  - destruct (split "." r) as [|seg' segs] eqn:Es.
    + exfalso. exact (split_nonempty _ _ Es).
    + injection H as _ ->. exact (IH _ eq_refl).
Qed.

(** With a dot in the name, the last segment of [split] is the text after
    the last dot. *)
Lemma pop_split_afterLastDot (s e : string) :
  afterLastDot s = Some e -> pop (split "." s) = Some e.
Proof.
  revert e. induction s as [|c r IH]; simpl; intros e H; [discriminate|].
  destruct (afterLastDot r) as [e'|] eqn:Er.
  - injection H as <-. specialize (IH _ eq_refl).
    destruct (Ascii.eqb c ".").
    + destruct (split "." r) as [|seg segs] eqn:Es; [discriminate|].
      rewrite pop_cons. exact IH.
    + destruct (split "." r) as [|seg [|seg' segs]] eqn:Es.
      * discriminate.
      * apply split_single in Es. apply afterLastDot_none in Es.
        rewrite Es in Er. discriminate.
      * rewrite pop_cons. rewrite pop_cons in IH. exact IH.
  - destruct (Ascii.eqb c "."); [|discriminate].
    injection H as <-.
    apply afterLastDot_none in Er. rewrite (split_no_dot _ Er). reflexivity.
Qed.

(* ------------------------------------------------------------------ *)
(** ** [isFileValid]                                                   *)
(* ------------------------------------------------------------------ *)

Lemma includes_In (l : list string) (s : string) :
  includes l s = true <-> In s l.
Proof.
  unfold includes. rewrite existsb_exists. split.
  - intros [x [Hx He]]. apply String.eqb_eq in He. now subst.
  - intros H. exists s. split; [assumption | apply String.eqb_refl].
Qed.

Section ValidationFacts.

Variable toLowerCase : string -> string.

(** The computed extension always starts with the dot that was put in
    front of it, so its truthiness test never fails. *)
Lemma fileExtension_truthy (file : File) : truthy (fileExtension toLowerCase file) = true.
Proof. reflexivity. Qed.

Lemma fileExtension_dotted (file : File) (e : string) :
  afterLastDot (name file) = Some e ->
  fileExtension toLowerCase file = "." ++ toLowerCase e.
Proof.
  intros H. unfold fileExtension.
  now rewrite (pop_split_afterLastDot _ _ H).
Qed.

Lemma fileExtension_dotless (file : File) :
  hasDot (name file) = false ->
  fileExtension toLowerCase file = "." ++ toLowerCase (name file).
Proof.
  intros H. unfold fileExtension.
  now rewrite (split_no_dot _ H).
Qed.

(** What the code decides: a file is refused exactly when the allow-list
    is non-empty and does not hold the computed extension. *)
Lemma isFileValid_false_iff (config : Config) (file : File) :
  isFileValid toLowerCase config file = false <->
  exists ft, filetypes config = Some ft /\ ft <> [] /\
             ~ In (fileExtension toLowerCase file) ft.
Proof.
  unfold isFileValid. rewrite negb_false_iff.
  destruct (filetypes config) as [ft|].
  - rewrite fileExtension_truthy, andb_true_r, andb_true_iff,
      negb_true_iff, Nat.ltb_lt.
    split.
    + intros [Hlen Hinc]. exists ft. repeat split.
      * intros ->. simpl in Hlen. lia.
      * intros Hin. apply includes_In in Hin. congruence.
    + intros [ft' [[= <-] [Hne Hnin]]]. split.
      * destruct ft; [contradiction | simpl; lia].
      * destruct (includes ft (fileExtension toLowerCase file)) eqn:E; [|reflexivity].
        apply includes_In in E. contradiction.
  - split; [discriminate | intros [ft [H _]]; discriminate].
Qed.

(** On names that hold a dot the code and the specification's wording
    agree. *)
Lemma isFileValid_dotted (config : Config) (file : File) :
  hasDot (name file) = true ->
  isFileValid toLowerCase config file = specIsFileValid toLowerCase config file.
Proof.
  intros Hdot.
  destruct (afterLastDot (name file)) as [e|] eqn:E.
  - unfold isFileValid, specIsFileValid, specExtension.
    rewrite fileExtension_truthy, E, (fileExtension_dotted _ _ E).
    destruct (filetypes config) as [[|t ts]|]; try reflexivity.
    cbn [List.length Nat.ltb Nat.leb andb].
    now rewrite andb_true_r, negb_involutive.
  - apply afterLastDot_none in E. congruence.
Qed.

(** On names without a dot the whole lowercased name, with a dot in
    front, is looked up in the allow-list. *)
Lemma isFileValid_dotless (config : Config) (file : File) :
  hasDot (name file) = false ->
  isFileValid toLowerCase config file =
    match filetypes config with
    | Some (t :: ts) => includes (t :: ts) ("." ++ toLowerCase (name file))
    | _ => true
    end.
Proof.
  intros Hdot. unfold isFileValid.
  rewrite fileExtension_truthy, (fileExtension_dotless _ Hdot).
  destruct (filetypes config) as [[|t ts]|]; try reflexivity.
  cbn [List.length Nat.ltb Nat.leb andb].
  now rewrite andb_true_r, negb_involutive.
Qed.

(** C9. With the allow-list absent ([filetypes] undefined) or empty,
    [isFileValid] returns true for every file, whatever its name or
    extension. *)
Theorem isFileValid_accepts_all_without_allow_list
    (lines : nat) (file : File) :
  isFileValid toLowerCase (mkConfig lines None) file = true /\
  isFileValid toLowerCase (mkConfig lines (Some [])) file = true.
Proof. split; reflexivity. Qed.

End ValidationFacts.

(** C1 (the code departs from the claim). With the allow-list [[".png"]],
    the file named [README] has no dot in its name, hence no extractable
    extension, and the claimed equivalence makes it valid; [isFileValid]
    computes the extension [".readme"] and returns false. *)
Theorem isFileValid_false_without_extractable_extension :
  let config := mkConfig 1 (Some [".png"]) in
  let file := mkFile "README" 0 in
  hasDot (name file) = false /\
  specExtension toLowerCaseAscii file = None /\
  fileExtension toLowerCaseAscii file = ".readme" /\
  isFileValid toLowerCaseAscii config file = false /\
  specIsFileValid toLowerCaseAscii config file = true.
Proof. repeat split. Qed.

(** C2 (the code departs from the claim). A file whose name holds no dot
    is refused by a non-empty allow-list that lacks the dotted, lowercased
    name: [Makefile] against [[".jpg"; ".png"]] is invalid. *)
Theorem isFileValid_rejects_dotless_name :
  let config := mkConfig 3 (Some [".jpg"; ".png"]) in
  let file := mkFile "Makefile" 7 in
  hasDot (name file) = false /\
  isFileValid toLowerCaseAscii config file = false.
Proof. split; reflexivity. Qed.

(* ------------------------------------------------------------------ *)
(** ** The container's children                                        *)
(* ------------------------------------------------------------------ *)

Lemma Node_eqb_eq (a b : Node) : Node_eqb a b = true <-> a = b.
Proof. destruct a, b; simpl; split; congruence. Qed.

Lemma contains_In (n : Node) (s : State) :
  contains n s = true <-> In n (containerChildren s).
Proof.
  unfold contains. rewrite existsb_exists. split.
  - intros [m [Hm He]]. apply Node_eqb_eq in He. now subst.
  - intros H. exists n. split; [assumption | now apply Node_eqb_eq].
Qed.

Lemma contains_false (n : Node) (s : State) :
  contains n s = false <-> ~ In n (containerChildren s).
Proof.
  rewrite <- contains_In. destruct (contains n s); split; congruence.
Qed.

Lemma In_without (m n : Node) (l : list Node) :
  In m (without n l) <-> In m l /\ m <> n.
Proof.
  unfold without. rewrite filter_In, negb_true_iff. split.
  - intros [H E]. split; [assumption|].
    intros ->. assert (Node_eqb n n = true) by now apply Node_eqb_eq.
    congruence.
  - intros [H E]. split; [assumption|].
    destruct (Node_eqb n m) eqn:B; [|reflexivity].
    apply Node_eqb_eq in B. congruence.
Qed.

Lemma appendChild_In (m n : Node) (s : State) :
  In m (containerChildren (appendChild n s)) <->
  m = n \/ In m (containerChildren s).
Proof.
  simpl. rewrite in_app_iff, In_without. simpl.
  destruct (Node_eqb m n) eqn:B.
  - apply Node_eqb_eq in B. subst. tauto.
  - assert (m <> n) by (intros ->; destruct n; discriminate).
    intuition congruence.
Qed.

Lemma removeChild_attached (n : Node) (s : State) :
  In n (containerChildren s) ->
  removeChild n s =
    Normal (set_containerChildren (without n (containerChildren s)) s).
Proof.
  intros H. unfold removeChild. apply contains_In in H. now rewrite H.
Qed.

Lemma removeChild_detached (n : Node) (s : State) :
  ~ In n (containerChildren s) -> removeChild n s = Throw NotFoundError s.
Proof.
  intros H. unfold removeChild. apply contains_false in H. now rewrite H.
Qed.

(* ------------------------------------------------------------------ *)
(** ** [handleValueChange]                                             *)
(* ------------------------------------------------------------------ *)

(** With a file bound the handler always returns, and the view shows the
    file. *)
Lemma handleValueChange_file (s : State) (file : File) :
  rawValue s = Some file ->
  exists s', handleValueChange s = Normal s' /\
             rawValue s' = Some file /\ showsFile file s' /\
             inputValue s' = inputValue s /\ inputFiles s' = inputFiles s /\
             dragging s' = dragging s /\
             clock s' = clock s /\ timers s' = timers s.
Proof.
  intros Hv. unfold handleValueChange. rewrite Hv.
  set (s1 := appendChild TextNode (set_textContent (name file) s)).
  assert (Htext : In TextNode (containerChildren s1))
    by (apply appendChild_In; now left).
  destruct (contains FileIconNode s1) eqn:Hc.
  - apply contains_In in Hc. rewrite (removeChild_attached _ _ Hc).
    eexists. split; [reflexivity|]. cbn -[without].
    unfold showsFile. cbn -[without]. rewrite !In_without.
    repeat split; try assumption; try discriminate; tauto.
  - apply contains_false in Hc.
    eexists. split; [reflexivity|]. cbn -[without].
    unfold showsFile. cbn -[without].
    repeat split; assumption.
Qed.

(** With [null] bound and the text element attached the handler returns,
    and the view is the empty one. *)
Lemma handleValueChange_null_attached (s : State) :
  rawValue s = None -> In TextNode (containerChildren s) ->
  exists s', handleValueChange s = Normal s' /\
             rawValue s' = None /\ showsEmpty s' /\
             inputValue s' = inputValue s /\ inputFiles s' = inputFiles s /\
             dragging s' = dragging s /\
             clock s' = clock s /\ timers s' = timers s.
Proof.
  intros Hv Ht. unfold handleValueChange. rewrite Hv.
  set (s1 := appendChild FileIconNode (set_textContent "" s)).
  assert (Ht1 : In TextNode (containerChildren s1))
    by (apply appendChild_In; now right).
  assert (Hi1 : In FileIconNode (containerChildren s1))
    by (apply appendChild_In; now left).
  rewrite (removeChild_attached _ _ Ht1).
  eexists. split; [reflexivity|]. cbn -[without].
  unfold showsEmpty. cbn -[without]. rewrite !In_without.
  repeat split; try assumption; try discriminate; tauto.
Qed.

(** With [null] bound and the text element detached, [removeChild] throws
    after the text was cleared and the icon appended: the warning, the
    delete button and the border keep what they had. *)
Lemma handleValueChange_null_detached (s : State) :
  rawValue s = None -> ~ In TextNode (containerChildren s) ->
  handleValueChange s =
    Throw NotFoundError (appendChild FileIconNode (set_textContent "" s)).
Proof.
  intros Hv Ht. unfold handleValueChange. rewrite Hv.
  rewrite removeChild_detached; [reflexivity|].
  rewrite appendChild_In. simpl. intros [H|H]; [discriminate | contradiction].
Qed.

(** C10. [handleValueChange] returns exactly when a file is bound or the
    text element is a child of the container: the [null] branch calls
    [removeChild] on the text element with no containment test (the file
    branch tests before removing the icon), so a notification with [null]
    throws [NotFoundError] whenever the text element is detached, and in
    particular a second notification with [null] right after a first one
    that returned. *)
Theorem handleValueChange_returns_iff_text_attached (s : State) :
  ((exists s', handleValueChange s = Normal s') <->
   (rawValue s <> None \/ In TextNode (containerChildren s))) /\
  (rawValue s = None -> ~ In TextNode (containerChildren s) ->
   exists s', handleValueChange s = Throw NotFoundError s') /\
  (rawValue s = None ->
   forall s1, handleValueChange s = Normal s1 ->
   rawValue s1 = None /\
   exists s2, handleValueChange s1 = Throw NotFoundError s2).
Proof.
  split; [|split].
  - split.
    + intros [s' H].
      destruct (rawValue s) as [file|] eqn:Hv; [left; discriminate|].
      right. destruct (contains TextNode s) eqn:Hc.
      * now apply contains_In.
      * apply contains_false in Hc.
        rewrite (handleValueChange_null_detached _ Hv Hc) in H. discriminate.
    + intros [Hv|Ht].
      * destruct (rawValue s) as [file|] eqn:E; [|contradiction].
        destruct (handleValueChange_file _ _ E) as [s' [H _]]. now exists s'.
      * destruct (rawValue s) as [file|] eqn:E.
        -- destruct (handleValueChange_file _ _ E) as [s' [H _]]. now exists s'.
        -- destruct (handleValueChange_null_attached _ E Ht) as [s' [H _]].
           now exists s'.
  - intros Hv Ht. eexists. exact (handleValueChange_null_detached _ Hv Ht).
  - intros Hv s1 H1.
    destruct (contains TextNode s) eqn:Hc.
    + apply contains_In in Hc.
      destruct (handleValueChange_null_attached _ Hv Hc)
        as [s' [H [Hv' [Hshow _]]]].
      rewrite H in H1. injection H1 as <-. split; [assumption|].
      destruct Hshow as [_ [_ [Hdet _]]].
      eexists. exact (handleValueChange_null_detached _ Hv' Hdet).
    + apply contains_false in Hc.
      rewrite (handleValueChange_null_detached _ Hv Hc) in H1. discriminate.
Qed.

Lemma handleValueChange_returns_iff_text_attached_witness :
  exists s', handleValueChange (emptyLayout None) = Throw NotFoundError s'.
Proof.
  destruct (handleValueChange_returns_iff_text_attached (emptyLayout None))
    as [_ [H _]].
  apply H; [reflexivity|].
  simpl. intros [E|[E|[]]]; discriminate.
Defined.

(** C4 (the code departs from the claim). A notification with [null]
    while the text element is detached does not bring the view to the
    empty layout: [removeChild] throws and the warning stays visible with
    its text.  Two ways to get there: a warning is shown after a file was
    removed and [null] is notified once more; or the controller was built
    over a value that held a file, a warning is shown, and the value
    changes to [null]. *)
Theorem handleValueChange_null_leaves_warning :
  let s1 := finalState (handleValueChange (set_rawValue None (fileLayout photo))) in
  let s2 := showWarning s1 in
  let t1 := showWarning (emptyLayout (Some photo)) in
  let t2 := set_rawValue None t1 in
  (showsEmpty s1 /\
   rawValue s2 = None /\
   handleValueChange s2 = Throw NotFoundError s2 /\
   warningInnerHTML s2 = "Unaccepted file type." /\
   warningDisplay s2 = "block" /\
   ~ showsEmpty (finalState (handleValueChange s2))) /\
  (rawValue t1 = Some photo /\
   setRawValue emitsOnChange None t1 = handleValueChange t2 /\
   handleValueChange t2 = Throw NotFoundError t2 /\
   warningInnerHTML t2 = "Unaccepted file type." /\
   warningDisplay t2 = "block" /\
   ~ showsEmpty (finalState (handleValueChange t2))).
Proof.
  vm_compute. repeat split; try reflexivity.
  - right; left; reflexivity.
  - intros [E|[E|[]]]; discriminate.
  - intros [_ [_ [_ [H _]]]]. discriminate.
  - intros [_ [_ [_ [H _]]]]. discriminate.
Qed.

(* ------------------------------------------------------------------ *)
(** ** Selecting, dropping and deleting                                *)
(* ------------------------------------------------------------------ *)

Section ControllerFacts.

Variable toLowerCase : string -> string.
Variable emits : option File -> option File -> bool.
Variable config : Config.

(** Committing a file never throws: the notification, if any, runs the
    file branch of [handleValueChange]. *)
Lemma setRawValue_file (file : File) (s : State) :
  exists s', setRawValue emits (Some file) s = Normal s' /\
             rawValue s' = Some file /\ dragging s' = dragging s.
Proof.
  unfold setRawValue. destruct (emits (rawValue s) (Some file)).
  - destruct (handleValueChange_file (set_rawValue (Some file) s) file eq_refl)
      as [s' [H [Hv [_ [_ [_ [Hd _]]]]]]].
    exists s'. repeat split; assumption.
  - eexists. repeat split.
Qed.

Lemma validateThenCommit_invalid (file : File) (s : State) :
  isFileValid toLowerCase config file = false ->
  validateThenCommit toLowerCase emits config file s = Normal (showWarning s).
Proof. intros H. unfold validateThenCommit. now rewrite H. Qed.

Lemma validateThenCommit_valid (file : File) (s : State) :
  isFileValid toLowerCase config file = true ->
  exists s', validateThenCommit toLowerCase emits config file s = Normal s' /\
             rawValue s' = Some file /\ dragging s' = dragging s.
Proof.
  intros H. unfold validateThenCommit. rewrite H. apply setRawValue_file.
Qed.

(** C5. A selection or a single-file drop of a file that [isFileValid]
    refuses returns normally with the state [showWarning] produces (the
    warning is visible with its text, the bound value is the one before,
    [setRawValue] did not run); a file that [isFileValid] accepts becomes
    the bound value. *)
Theorem invalid_file_warns_valid_file_commits (s : State) (file : File) :
  let drop := DragEvent (Some (mkDataTransfer (Some [file]))) in
  (isFileValid toLowerCase config file = false ->
   (forall rest, inputFiles s = Some (file :: rest) ->
      onFile toLowerCase emits config s = Normal (showWarning s)) /\
   onDrop toLowerCase emits config drop s =
     Normal (changeDraggingState false (showWarning s)) /\
   rawValue (showWarning s) = rawValue s /\
   warningInnerHTML (showWarning s) = "Unaccepted file type." /\
   warningDisplay (showWarning s) = "block") /\
  (isFileValid toLowerCase config file = true ->
   (forall rest, inputFiles s = Some (file :: rest) ->
      exists s', onFile toLowerCase emits config s = Normal s' /\
                 rawValue s' = Some file) /\
   (exists s', onDrop toLowerCase emits config drop s = Normal s' /\
               rawValue s' = Some file)).
Proof.
  intros drop. split; intros Hvalid.
  - repeat split.
    + intros rest Hin. unfold onFile. rewrite Hin.
      now apply validateThenCommit_invalid.
    + unfold onDrop, drop. cbn [files List.length Nat.eqb nth_error].
      now rewrite validateThenCommit_invalid.
  - split.
    + intros rest Hin. unfold onFile. rewrite Hin.
      destruct (validateThenCommit_valid file s Hvalid) as [s' [H [Hv _]]].
      now exists s'.
    + unfold onDrop, drop. cbn [files List.length Nat.eqb nth_error].
      destruct (validateThenCommit_valid file s Hvalid) as [s' [H [Hv _]]].
      rewrite H. eexists. split; [reflexivity | exact Hv].
Qed.

(** C7. A drop of no file or of several files returns normally with the
    bound value as it was and the dragging state inactive; a change event
    on an input with an empty file list changes nothing at all. *)
Theorem drop_without_single_file_is_noop (s : State) (dropped : list File) :
  List.length dropped <> 1 ->
  let drop := DragEvent (Some (mkDataTransfer (Some dropped))) in
  onDrop toLowerCase emits config drop s =
    Normal (changeDraggingState false s) /\
  rawValue (changeDraggingState false s) = rawValue s /\
  dragging (changeDraggingState false s) = false /\
  (inputFiles s = Some [] -> onFile toLowerCase emits config s = Normal s).
Proof.
  intros Hlen drop. repeat split.
  - unfold onDrop, drop. cbn [files].
    apply Nat.eqb_neq in Hlen. now rewrite Hlen.
  - intros Hin. unfold onFile. now rewrite Hin.
Qed.

(** Events that carry no file list at all end the same way. *)
Lemma drop_without_payload_is_noop (s : State) :
  onDrop toLowerCase emits config OtherEvent s =
    Normal (changeDraggingState false s) /\
  onDrop toLowerCase emits config (DragEvent None) s =
    Normal (changeDraggingState false s) /\
  onDrop toLowerCase emits config
         (DragEvent (Some (mkDataTransfer None))) s =
    Normal (changeDraggingState false s) /\
  (inputFiles s = None -> onFile toLowerCase emits config s = Normal s).
Proof.
  repeat split. intros Hin. unfold onFile. now rewrite Hin.
Qed.

(** With the text element attached, deleting a bound file does all that
    [onDeleteClick] is written to do. *)
Lemma onDeleteClick_attached (s : State) (file : File) :
  rawValue s = Some file -> In TextNode (containerChildren s) ->
  exists s', onDeleteClick emits s = Normal s' /\
             rawValue s' = None /\ inputValue s' = "" /\
             warningInnerHTML s' = "" /\ warningDisplay s' = "none".
Proof.
  intros Hv Ht. unfold onDeleteClick, setRawValue. rewrite Hv.
  destruct (emits (Some file) None).
  - destruct (handleValueChange_null_attached (set_rawValue None s) eq_refl Ht)
      as [s' [H [Hv' _]]].
    rewrite H. eexists. split; [reflexivity|]. repeat split. exact Hv'.
  - eexists. split; [reflexivity|]. repeat split.
Qed.

(** With the text element detached and a notification emitted, the
    exception of [handleValueChange] leaves [onDeleteClick] before the
    input and the warning are reset. *)
Lemma onDeleteClick_detached (s : State) (file : File) :
  rawValue s = Some file -> ~ In TextNode (containerChildren s) ->
  emits (Some file) None = true ->
  exists s', onDeleteClick emits s = Throw NotFoundError s' /\
             rawValue s' = None /\ inputValue s' = inputValue s /\
             warningInnerHTML s' = warningInnerHTML s /\
             warningDisplay s' = warningDisplay s.
Proof.
  intros Hv Ht He. unfold onDeleteClick, setRawValue. rewrite Hv, He.
  rewrite (handleValueChange_null_detached (set_rawValue None s) eq_refl Ht).
  eexists. split; [reflexivity|]. repeat split.
Qed.

(** Without a bound file [onDeleteClick] does nothing. *)
Lemma onDeleteClick_unbound (s : State) :
  rawValue s = None -> onDeleteClick emits s = Normal s.
Proof. intros Hv. unfold onDeleteClick. now rewrite Hv. Qed.

End ControllerFacts.

(* ------------------------------------------------------------------ *)
(** ** The warning and its timers                                      *)
(* ------------------------------------------------------------------ *)

Lemma showWarning_fields (s : State) :
  warningInnerHTML (showWarning s) = "Unaccepted file type." /\
  warningDisplay (showWarning s) = "block" /\
  timers (showWarning s) = (timers s ++ [((clock s + 5000)%N, DismissWarning)])%list /\
  clock (showWarning s) = clock s /\
  rawValue (showWarning s) = rawValue s.
Proof. repeat split. Qed.

Lemma runCallback_dismisses (cb : TimerCallback) (s : State) :
  warningInnerHTML (runCallback cb s) = "" /\
  warningDisplay (runCallback cb s) = "none".
Proof. destruct cb. split; reflexivity. Qed.

(** Firing timers touches the warning only. *)
Lemma fire_frame (now : N) (q : list Timer) (s : State) :
  clock (fire now q s) = clock s /\ timers (fire now q s) = timers s /\
  rawValue (fire now q s) = rawValue s.
Proof.
  revert s. induction q as [|t q IH]; intros s; simpl; [repeat split|].
  destruct (IH (if due now t then runCallback (snd t) s else s))
    as [Hc [Ht Hv]].
  rewrite Hc, Ht, Hv. destruct (due now t); [destruct (snd t)|]; repeat split.
Qed.

Lemma fire_keeps_dismissed (now : N) (q : list Timer) (s : State) :
  warningInnerHTML s = "" -> warningDisplay s = "none" ->
  warningInnerHTML (fire now q s) = "" /\ warningDisplay (fire now q s) = "none".
Proof.
  revert s. induction q as [|t q IH]; intros s Hh Hd; simpl; [now split|].
  apply IH; destruct (due now t); try assumption;
    apply runCallback_dismisses.
Qed.

(** No due timer, no change. *)
Lemma fire_none_due (now : N) (q : list Timer) (s : State) :
  (forall t, In t q -> due now t = false) -> fire now q s = s.
Proof.
  revert s. induction q as [|t q IH]; intros s H; simpl; [reflexivity|].
  rewrite (H t (or_introl eq_refl)). apply IH.
  intros t' Ht'. apply H. now right.
Qed.

(** One due timer anywhere in the queue is enough to hide the warning. *)
Lemma fire_due_dismisses (now : N) (q : list Timer) (s : State) (t : Timer) :
  In t q -> due now t = true ->
  warningInnerHTML (fire now q s) = "" /\ warningDisplay (fire now q s) = "none".
Proof.
  revert s. induction q as [|t' q IH]; intros s Hin Hdue; [contradiction|].
  simpl. destruct Hin as [->|Hin].
  - rewrite Hdue. apply fire_keeps_dismissed; apply runCallback_dismisses.
  - now apply IH.
Qed.

Lemma elapse_clock (ms : N) (s : State) : clock (elapse ms s) = (clock s + ms)%N.
Proof. unfold elapse, runTimers. now rewrite (proj1 (fire_frame _ _ _)). Qed.

Lemma elapse_timers (ms : N) (s : State) :
  timers (elapse ms s) =
  filter (fun t => negb (due (clock s + ms)%N t)) (timers s).
Proof.
  unfold elapse, runTimers.
  now rewrite (proj1 (proj2 (fire_frame _ _ _))).
Qed.

Lemma elapse_dismisses (ms : N) (s : State) (t : Timer) :
  In t (timers s) -> (fst t <= clock s + ms)%N ->
  warningInnerHTML (elapse ms s) = "" /\ warningDisplay (elapse ms s) = "none".
Proof.
  intros Hin Hle. unfold elapse, runTimers.
  apply fire_due_dismisses with (t := t); [exact Hin|].
  unfold due. now apply N.leb_le.
Qed.

(** While nothing is due, time passing leaves the warning as it is. *)
Lemma elapse_keeps_warning (ms : N) (s : State) :
  (forall t, In t (timers s) -> (clock s + ms < fst t)%N) ->
  warningInnerHTML (elapse ms s) = warningInnerHTML s /\
  warningDisplay (elapse ms s) = warningDisplay s.
Proof.
  intros H. unfold elapse, runTimers. rewrite fire_none_due.
  - split; reflexivity.
  - intros t Ht. unfold due. apply N.leb_gt. now apply H.
Qed.

(** C8. [showWarning] writes the fixed text, shows the element and adds
    one timer due 5000 ms later to the queue, from which nothing is ever
    removed but by firing; the callback clears and hides whatever the
    warning shows.  Hence, with a second [showWarning] issued [d] ms after
    a first one ([0 < d < 5000]), the first timer fires [5000 - d] ms
    later and hides the second warning while the second timer is still
    pending, before the second warning has had its 5000 ms. *)
Theorem showWarning_dismissals_are_independent (s : State) :
  (warningInnerHTML (showWarning s) = "Unaccepted file type." /\
   warningDisplay (showWarning s) = "block" /\
   timers (showWarning s) =
     (timers s ++ [((clock s + 5000)%N, DismissWarning)])%list) /\
  (warningInnerHTML (runCallback DismissWarning s) = "" /\
   warningDisplay (runCallback DismissWarning s) = "none") /\
  (warningInnerHTML (elapse 5000%N (showWarning s)) = "" /\
   warningDisplay (elapse 5000%N (showWarning s)) = "none") /\
  (forall d, (0 < d < 5000)%N ->
   let s2 := showWarning (elapse d (showWarning s)) in
   let s3 := elapse (5000 - d)%N s2 in
   (warningInnerHTML s2 = "Unaccepted file type." /\
    warningDisplay s2 = "block") /\
   (clock s3 < clock s2 + 5000)%N /\
   In ((clock s2 + 5000)%N, DismissWarning) (timers s3) /\
   warningInnerHTML s3 = "" /\ warningDisplay s3 = "none").
Proof.
  split; [|split; [|split]].
  - repeat split.
  - split; reflexivity.
  - apply elapse_dismisses with (t := ((clock s + 5000)%N, DismissWarning)).
    + destruct (showWarning_fields s) as [_ [_ [-> _]]].
      apply in_or_app. right. now left.
    + now destruct (showWarning_fields s) as [_ [_ [_ [-> _]]]].
  - intros d Hd s2 s3.
    assert (Hc2 : clock s2 = (clock s + d)%N).
    { unfold s2.
      destruct (showWarning_fields (elapse d (showWarning s)))
        as [_ [_ [_ [-> _]]]].
      rewrite elapse_clock.
      now destruct (showWarning_fields s) as [_ [_ [_ [-> _]]]]. }
    assert (Hfirst : In ((clock s + 5000)%N, DismissWarning) (timers s2)).
    { unfold s2.
      destruct (showWarning_fields (elapse d (showWarning s)))
        as [_ [_ [-> _]]].
      apply in_or_app. left. rewrite elapse_timers. apply filter_In. split.
      - destruct (showWarning_fields s) as [_ [_ [-> _]]].
        apply in_or_app. right. now left.
      - destruct (showWarning_fields s) as [_ [_ [_ [-> _]]]].
        unfold due. cbn [fst]. apply negb_true_iff, N.leb_gt. lia. }
    assert (Hsecond : In ((clock s2 + 5000)%N, DismissWarning) (timers s2)).
    { unfold s2 at 2.
      destruct (showWarning_fields (elapse d (showWarning s)))
        as [_ [_ [-> [Hc _]]]].
      fold s2 in Hc. rewrite <- Hc. apply in_or_app. right. now left. }
    split; [|split; [|split]].
    + unfold s2. split;
        apply (showWarning_fields (elapse d (showWarning s))).
    + unfold s3. rewrite elapse_clock. lia.
    + unfold s3. rewrite elapse_timers. apply filter_In. split; [exact Hsecond|].
      unfold due. cbn [fst]. apply negb_true_iff, N.leb_gt. lia.
    + unfold s3.
      apply elapse_dismisses with (t := ((clock s + 5000)%N, DismissWarning));
        [exact Hfirst | cbn [fst]; lia].
Qed.

Lemma showWarning_dismissals_are_independent_witness :
  let s2 := showWarning (elapse 2000 (showWarning (emptyLayout None))) in
  let s3 := elapse 3000 s2 in
  (clock s3 < clock s2 + 5000)%N /\
  In ((clock s2 + 5000)%N, DismissWarning) (timers s3) /\
  warningInnerHTML s3 = "" /\ warningDisplay s3 = "none".
Proof.
  destruct (showWarning_dismissals_are_independent (emptyLayout None))
    as [_ [_ [_ H]]].
  apply (H 2000%N). lia.
Defined.

(* ------------------------------------------------------------------ *)
(** ** Examples of selections, drops and deletions                     *)
(* ------------------------------------------------------------------ *)

Lemma invalid_file_warns_valid_file_commits_witness :
  onFile toLowerCaseAscii emitsOnChange pngOnly (pick notes (emptyLayout None))
  = Normal (showWarning (pick notes (emptyLayout None))) /\
  exists s', onFile toLowerCaseAscii emitsOnChange pngOnly
                    (pick scan (emptyLayout None)) = Normal s' /\
             rawValue s' = Some scan.
Proof.
  split.
  - destruct (invalid_file_warns_valid_file_commits toLowerCaseAscii
                emitsOnChange pngOnly (pick notes (emptyLayout None)) notes)
      as [Hrefused _].
    destruct (Hrefused eq_refl) as [H _]. exact (H [] eq_refl).
  - destruct (invalid_file_warns_valid_file_commits toLowerCaseAscii
                emitsOnChange pngOnly (pick scan (emptyLayout None)) scan)
      as [_ Haccepted].
    destruct (Haccepted eq_refl) as [H _]. exact (H [] eq_refl).
Defined.

Lemma drop_without_single_file_is_noop_witness :
  onDrop toLowerCaseAscii emitsOnChange pngOnly
         (DragEvent (Some (mkDataTransfer (Some [photo; scan]))))
         (changeDraggingState true (fileLayout photo))
  = Normal (changeDraggingState false (fileLayout photo)) /\
  onDrop toLowerCaseAscii emitsOnChange pngOnly
         (DragEvent (Some (mkDataTransfer (Some []))))
         (changeDraggingState true (fileLayout photo))
  = Normal (changeDraggingState false (fileLayout photo)).
Proof.
  split.
  - refine (proj1 (drop_without_single_file_is_noop toLowerCaseAscii
                     emitsOnChange pngOnly
                     (changeDraggingState true (fileLayout photo))
                     [photo; scan] _)).
    simpl. lia.
  - refine (proj1 (drop_without_single_file_is_noop toLowerCaseAscii
                     emitsOnChange pngOnly
                     (changeDraggingState true (fileLayout photo)) [] _)).
    simpl. lia.
Defined.

(** C6 (the code departs from the claim). A file is bound while the text
    element is detached (the controller was built over a value that held
    the file already), and a refused selection has left its path in the
    input and its warning on screen.  [onDeleteClick] sets the value to
    [null]; the notification throws in [removeChild], and the handler is
    left before the input and the warning are reset. *)
Theorem onDeleteClick_throws_before_reset :
  let s0 := pick notes (emptyLayout (Some photo)) in
  let s1 := finalState (onFile toLowerCaseAscii emitsOnChange pngOnly s0) in
  rawValue s1 = Some photo /\
  ~ In TextNode (containerChildren s1) /\
  exists s2, onDeleteClick emitsOnChange s1 = Throw NotFoundError s2 /\
             rawValue s2 = None /\
             inputValue s2 = "C:\fakepath\notes.txt" /\
             warningInnerHTML s2 = "Unaccepted file type." /\
             warningDisplay s2 = "block".
Proof.
  vm_compute. split; [reflexivity|]. split.
  - intros [E|[E|[]]]; discriminate.
  - eexists. repeat split.
Qed.

(** The scenario of the specification: a refused selection, an accepted
    one, then a deletion. *)
Lemma select_then_delete_scenario :
  let s0 := emptyLayout None in
  let s1 := finalState (onFile toLowerCaseAscii emitsOnChange pngOnly
                               (pick notes s0)) in
  let s2 := finalState (onFile toLowerCaseAscii emitsOnChange pngOnly
                               (pick photo s1)) in
  let s3 := finalState (onDeleteClick emitsOnChange s2) in
  (rawValue s1 = None /\ warningDisplay s1 = "block") /\
  (rawValue s2 = Some photo /\ showsFile photo s2) /\
  (rawValue s3 = None /\ showsEmpty s3 /\ inputValue s3 = "").
Proof.
  vm_compute. repeat split; try (intros [E|[E|[]]]; discriminate).
  - right; left; reflexivity.
  - right; left; reflexivity.
Qed.

(* ------------------------------------------------------------------ *)
(** ** Listeners and disposal                                          *)
(* ------------------------------------------------------------------ *)

Lemma Listener_eqb_eq (a b : Listener) : Listener_eqb a b = true <-> a = b.
Proof.
  destruct a as [[t1 e1] h1], b as [[t2 e2] h2]. simpl.
  rewrite !andb_true_iff, String.eqb_eq. split.
  - intros [[Ht He] Hh]. subst.
    destruct t1, t2; try discriminate; destruct h1, h2; try discriminate;
      reflexivity.
  - intros [= -> -> ->]. repeat split; [now destruct t2 | now destruct h2].
Qed.

Lemma addEventListener_In (t : Target) (type : string) (h : Handler)
    (tbl : list Listener) (l : Listener) :
  In l (addEventListener t type h tbl) <-> l = (t, type, h) \/ In l tbl.
Proof.
  unfold addEventListener.
  destruct (existsb (Listener_eqb (t, type, h)) tbl) eqn:E.
  - apply existsb_exists in E as [x [Hx He]].
    apply Listener_eqb_eq in He. subst x.
    split; [now right | intros [->|H]; assumption].
  - rewrite in_app_iff. simpl. intuition congruence.
Qed.

Lemma removeEventListener_In (t : Target) (type : string) (h : Handler)
    (tbl : list Listener) (l : Listener) :
  In l (removeEventListener t type h tbl) <-> In l tbl /\ l <> (t, type, h).
Proof.
  unfold removeEventListener. rewrite filter_In, negb_true_iff. split.
  - intros [H E]. split; [assumption|]. intros ->.
    assert (Listener_eqb (t, type, h) (t, type, h) = true)
      by now apply Listener_eqb_eq.
    congruence.
  - intros [H E]. split; [assumption|].
    destruct (Listener_eqb (t, type, h) l) eqn:B; [|reflexivity].
    apply Listener_eqb_eq in B. congruence.
Qed.

(** On the elements of a new view, which carry no listener yet, the
    constructor installs five listeners and the disposal leaves one. *)
Lemma listeners_of_new_view :
  bindListeners [] =
    [(ViewInput, "change", OnFile); (ViewElement, "drop", OnDrop);
     (ViewElement, "dragover", OnDragOver);
     (ViewElement, "dragleave", OnDragLeave);
     (ViewDeleteButton, "click", OnDeleteClick)] /\
  disposeCallback (bindListeners []) =
    [(ViewDeleteButton, "click", OnDeleteClick)].
Proof. split; reflexivity. Qed.

(** After disposal a click on the delete button still reaches
    [onDeleteClick], while a change of the input reaches nothing. *)
Lemma click_after_dispose (toLowerCase : string -> string)
    (emits : option File -> option File -> bool) (config : Config)
    (ev : DomEvent) (s : State) :
  let tbl := disposeCallback (bindListeners []) in
  dispatchEvent toLowerCase emits config tbl ViewDeleteButton "click" ev s
  = finalState (onDeleteClick emits s) /\
  dispatchEvent toLowerCase emits config tbl ViewInput "change" ev s = s.
Proof. split; reflexivity. Qed.

(** C3 (the code departs from the claim). Whatever listeners the elements
    carried before, once the constructor has bound its five listeners and
    the disposal callback has run, the ['change'], ['drop'], ['dragover']
    and ['dragleave'] listeners are gone and the ['click'] listener on the
    delete button is still registered: the callback does not remove it. *)
Theorem dispose_keeps_click_listener (tbl : list Listener) :
  let after := disposeCallback (bindListeners tbl) in
  In (ViewDeleteButton, "click", OnDeleteClick) after /\
  ~ In (ViewInput, "change", OnFile) after /\
  ~ In (ViewElement, "drop", OnDrop) after /\
  ~ In (ViewElement, "dragover", OnDragOver) after /\
  ~ In (ViewElement, "dragleave", OnDragLeave) after.
Proof.
  unfold disposeCallback, bindListeners. cbv zeta.
  repeat split.
  - rewrite !removeEventListener_In. repeat split; try discriminate.
    apply addEventListener_In. now left.
  - rewrite !removeEventListener_In. intuition congruence.
  - rewrite !removeEventListener_In. intuition congruence.
  - rewrite !removeEventListener_In. intuition congruence.
  - rewrite !removeEventListener_In. intuition congruence.
Qed.

(* ------------------------------------------------------------------ *)
(** ** The view stays in step with the value                           *)
(* ------------------------------------------------------------------ *)

Lemma File_eqb_eq (a b : File) : File_eqb a b = true <-> a = b.
Proof.
  destruct a as [n1 u1], b as [n2 u2]. unfold File_eqb. simpl.
  rewrite andb_true_iff, String.eqb_eq, Nat.eqb_eq.
  split; [intros [-> ->]; reflexivity | intros [= -> ->]; now split].
Qed.

Section InSync.

Variable toLowerCase : string -> string.
Variable config : Config.

Lemma handleValueChange_inSync (s s' : State) :
  handleValueChange s = Normal s' -> inSync s'.
Proof.
  intros H. destruct (rawValue s) as [file|] eqn:Hv.
  - destruct (handleValueChange_file _ _ Hv) as [s1 [H1 [_ [Hshow _]]]].
    rewrite H1 in H. injection H as <-. intros _. apply Hshow.
  - destruct (contains TextNode s) eqn:Hc.
    + apply contains_In in Hc.
      destruct (handleValueChange_null_attached _ Hv Hc) as [s1 [H1 [Hv1 _]]].
      rewrite H1 in H. injection H as <-. intros Hne. contradiction.
    + apply contains_false in Hc.
      rewrite (handleValueChange_null_detached _ Hv Hc) in H. discriminate.
Qed.

(** With the host's default policy, a value set from a state in step
    returns normally and the state stays in step. *)
Lemma setRawValue_inSync (v : option File) (s : State) :
  inSync s ->
  exists s', setRawValue emitsOnChange v s = Normal s' /\
             rawValue s' = v /\ inSync s'.
Proof.
  intros Hs. unfold setRawValue.
  destruct (emitsOnChange (rawValue s) v) eqn:He.
  - destruct v as [file|].
    + destruct (handleValueChange_file (set_rawValue (Some file) s) file eq_refl)
        as [s' [H [Hv _]]].
      exists s'. repeat split; try assumption.
      exact (handleValueChange_inSync _ _ H).
    + destruct (rawValue s) as [old|] eqn:Hold; [|discriminate].
      assert (Ht : In TextNode (containerChildren s))
        by (apply Hs; rewrite Hold; discriminate).
      destruct (handleValueChange_null_attached (set_rawValue None s) eq_refl Ht)
        as [s' [H [Hv _]]].
      exists s'. repeat split; try assumption.
      exact (handleValueChange_inSync _ _ H).
  - eexists. split; [reflexivity|]. split; [reflexivity|].
    unfold inSync. simpl. intros Hne. apply Hs.
    destruct (rawValue s) as [old|], v as [file|];
      try discriminate; try contradiction.
Qed.

(** Every handler, run from a state in step under the default policy,
    returns normally and leaves a state in step. *)
Lemma runHandler_inSync (h : Handler) (ev : DomEvent) (s : State) :
  inSync s ->
  exists s', runHandler toLowerCase emitsOnChange config h ev s = Normal s' /\
             inSync s'.
Proof.
  intros Hs.
  assert (Hcommit : forall file,
            exists s', validateThenCommit toLowerCase emitsOnChange config
                                          file s = Normal s' /\ inSync s').
  { intros file. unfold validateThenCommit.
    destruct (isFileValid toLowerCase config file); simpl.
    - destruct (setRawValue_inSync (Some file) s Hs) as [s' [H [_ Hs']]].
      now exists s'.
    - eexists. split; [reflexivity | exact Hs]. }
  destruct h; simpl.
  - unfold onFile. destruct (inputFiles s) as [[|file rest]|];
      [now exists s | apply Hcommit | now exists s].
  - unfold onDrop.
    assert (Hnone : exists s', Normal s >>= (fun s0 =>
                      Normal (changeDraggingState false s0)) = Normal s' /\
                    inSync s')
      by (eexists; split; [reflexivity | exact Hs]).
    destruct ev as [[[[fs|]]|]|]; try exact Hnone.
    cbn [files]. destruct (List.length fs =? 1); [|exact Hnone].
    destruct (nth_error fs 0) as [file|]; [|exact Hnone].
    destruct (Hcommit file) as [s' [H Hs']]. rewrite H.
    eexists. split; [reflexivity | exact Hs'].
  - eexists. split; [reflexivity | exact Hs].
  - eexists. split; [reflexivity | exact Hs].
  - unfold onDeleteClick. destruct (rawValue s) as [file|] eqn:Hv.
    + destruct (setRawValue_inSync None s Hs) as [s' [H [Hv' _]]].
      rewrite H. eexists. split; [reflexivity|].
      unfold inSync. simpl. rewrite Hv'. intros Hne. contradiction.
    + now exists s.
Qed.

(** Time passing and timers firing leave a state in step. *)
Lemma elapse_inSync (ms : N) (s : State) : inSync s -> inSync (elapse ms s).
Proof.
  assert (Hfire : forall now q s0,
            containerChildren (fire now q s0) = containerChildren s0).
  { intros now q. induction q as [|t q IH]; intros s0; simpl; [reflexivity|].
    rewrite IH. destruct (due now t); [destruct (snd t)|]; reflexivity. }
  intros Hs. unfold inSync, elapse, runTimers.
  rewrite (proj2 (proj2 (fire_frame _ _ _))), Hfire. exact Hs.
Qed.

End InSync.

(* ------------------------------------------------------------------ *)
(** ** More on [isFileValid]: what the verdict depends on              *)
(* ------------------------------------------------------------------ *)

Lemma pop_In {A : Type} (l : list A) (x : A) : pop l = Some x -> In x l.
Proof.
  induction l as [|y [|z l] IH]; intros H.
  - discriminate.
  - injection H as ->. now left.
  - right. apply IH. exact H.
Qed.


(** No segment produced by [split] holds the separator. *)
Lemma split_segments_dotless (s : string) :
  Forall (fun seg => hasDot seg = false) (split "." s).
Proof.
  induction s as [|c r IH]; simpl.
  - constructor; [reflexivity | constructor].
  - destruct (Ascii.eqb c ".") eqn:Ec.
    + constructor; [reflexivity | exact IH].
    + destruct (split "." r) as [|seg segs]; inversion IH; subst.
      * constructor; [simpl; now rewrite Ec | constructor].
      * constructor; [simpl; rewrite Ec; assumption | assumption].
Qed.

Lemma afterLastDot_app (base e : string) :
  hasDot e = false -> afterLastDot (base ++ "." ++ e) = Some e.
Proof.
  intros He. induction base as [|c r IH]; simpl.
  - apply afterLastDot_none in He. now rewrite He.
  - simpl in IH. now rewrite IH.
Qed.

Lemma lowerAscii_dot (c : ascii) :
  Ascii.eqb (lowerAscii c) "." = Ascii.eqb c ".".
Proof.
  destruct c as [[] [] [] [] [] [] [] []]; reflexivity.
Qed.

Lemma lowerAscii_not_upper (c : ascii) : isUpper (lowerAscii c) = false.
Proof.
  destruct c as [[] [] [] [] [] [] [] []]; reflexivity.
Qed.

Lemma toLowerCaseAscii_hasDot (s : string) :
  hasDot (toLowerCaseAscii s) = hasDot s.
Proof.
  induction s as [|c r IH]; simpl; [reflexivity|].
  now rewrite lowerAscii_dot, IH.
Qed.

Lemma toLowerCaseAscii_hasUpper (s : string) :
  hasUpper (toLowerCaseAscii s) = false.
Proof.
  induction s as [|c r IH]; simpl; [reflexivity|].
  now rewrite lowerAscii_not_upper, IH.
Qed.



Lemma fileExtension_shaped (file : File) :
  extensionShaped (fileExtension toLowerCaseAscii file) = true.
Proof.
  unfold fileExtension.
  destruct (pop (split "." (name file))) as [seg|] eqn:Ep.
  - apply pop_In in Ep.
    pose proof (split_segments_dotless (name file)) as Hall.
    rewrite Forall_forall in Hall. apply Hall in Ep.
    cbn [append extensionShaped]. cbn [Ascii.eqb Bool.eqb andb].
    now rewrite toLowerCaseAscii_hasDot, Ep, toLowerCaseAscii_hasUpper.
  - destruct (pop_some (split "." (name file)) (split_nonempty _ _)) as [x Hx].
    congruence.
Qed.

(** X1. The truthiness guard on the computed extension never decides:
    [isFileValid] returns true exactly when there is no allow-list, the
    allow-list is empty, or the allow-list holds the computed extension
    (a dot and the folded last dot-separated segment of the name). *)
Theorem isFileValid_true_iff (toLowerCase : string -> string)
    (config : Config) (file : File) :
  isFileValid toLowerCase config file = true <->
  filetypes config = None \/ filetypes config = Some [] \/
  exists ft, filetypes config = Some ft /\
             In (fileExtension toLowerCase file) ft.
Proof.
  destruct (isFileValid toLowerCase config file) eqn:E.
  - split; [intros _ | reflexivity].
    destruct (filetypes config) as [[|t ts]|] eqn:Ef; [tauto | | tauto].
    right; right. exists (t :: ts). split; [reflexivity|].
    destruct (in_dec string_dec (fileExtension toLowerCase file) (t :: ts))
      as [Hin|Hnin]; [exact Hin|].
    assert (isFileValid toLowerCase config file = false); [|congruence].
    apply isFileValid_false_iff. exists (t :: ts).
    repeat split; [assumption | discriminate | assumption].
  - split; [discriminate|].
    apply isFileValid_false_iff in E as [ft [Hf [Hne Hnin]]].
    intros [H|[H|[ft' [H Hin]]]]; rewrite Hf in H.
    + discriminate.
    + injection H as ->. contradiction.
    + injection H as <-. contradiction.
Qed.

(** X2. Only the text after the last dot of the name counts: whatever
    precedes the last dot, or the whole name when it has no dot, the
    computed extension is a dot followed by that folded text - so
    [archive.tar.gz] has extension [.gz], and [README] has the extension
    of [x.readme]. *)
Theorem fileExtension_is_last_segment (toLowerCase : string -> string)
    (base e : string) (u v : nat) :
  hasDot e = false ->
  fileExtension toLowerCase (mkFile (base ++ "." ++ e) u) = "." ++ toLowerCase e /\
  fileExtension toLowerCase (mkFile e v) = "." ++ toLowerCase e.
Proof.
  intros He. split.
  - apply fileExtension_dotted. simpl. now apply afterLastDot_app.
  - now apply fileExtension_dotless.
Qed.

Lemma fileExtension_is_last_segment_witness :
  fileExtension toLowerCaseAscii (mkFile "archive.tar.gz" 4) = ".gz" /\
  fileExtension toLowerCaseAscii (mkFile "gz" 5) = ".gz".
Proof.
  exact (fileExtension_is_last_segment toLowerCaseAscii "archive.tar" "gz"
           4 5 eq_refl).
Defined.



(** X4. The allow-list is compared as written.  Under ASCII folding an
    entry can match only if it is a dot followed by text without a dot or
    a capital; a non-empty allow-list with no such entry (as [["png"]],
    [[".PNG"]] or [[".tar.gz"]]) refuses every file. *)
Theorem isFileValid_refuses_all_for_unshaped_entries
    (lines : nat) (ft : list string) (file : File) :
  ft <> [] ->
  forallb (fun entry => negb (extensionShaped entry)) ft = true ->
  isFileValid toLowerCaseAscii (mkConfig lines (Some ft)) file = false.
Proof.
  intros Hne Hall. apply isFileValid_false_iff. exists ft.
  repeat split; [assumption|]. intros Hin.
  rewrite forallb_forall in Hall. apply Hall in Hin.
  now rewrite fileExtension_shaped in Hin.
Qed.

Lemma isFileValid_refuses_all_for_unshaped_entries_witness :
  isFileValid toLowerCaseAscii (mkConfig 1 (Some [".PNG"; "png"; ".tar.gz"]))
              scan = false.
Proof.
  apply (isFileValid_refuses_all_for_unshaped_entries 1
           [".PNG"; "png"; ".tar.gz"] scan); [discriminate | reflexivity].
Defined.

(** X5. Growing a non-empty allow-list never turns a valid file invalid.
    (The list must be non-empty to start with: the empty list accepts
    every file, a longer one need not.) *)
Theorem isFileValid_monotone (toLowerCase : string -> string)
    (lines : nat) (ft ft' : list string) (file : File) :
  ft <> [] -> incl ft ft' ->
  isFileValid toLowerCase (mkConfig lines (Some ft)) file = true ->
  isFileValid toLowerCase (mkConfig lines (Some ft')) file = true.
Proof.
  intros Hne Hincl Hvalid.
  destruct (isFileValid toLowerCase (mkConfig lines (Some ft')) file) eqn:E;
    [reflexivity|].
  apply isFileValid_false_iff in E as [l [[= <-] [_ Hnin]]].
  assert (Hbad : isFileValid toLowerCase (mkConfig lines (Some ft)) file = false).
  { apply isFileValid_false_iff. exists ft. repeat split; [assumption|].
    intros Hin. apply Hnin, Hincl, Hin. }
  congruence.
Qed.

Lemma isFileValid_monotone_witness :
  isFileValid toLowerCaseAscii (mkConfig 1 (Some [".jpg"; ".png"])) scan = true.
Proof.
  apply (isFileValid_monotone toLowerCaseAscii 1 [".png"] [".jpg"; ".png"] scan).
  - discriminate.
  - intros x [<-|[]]. right; now left.
  - reflexivity.
Defined.

(* ------------------------------------------------------------------ *)
(** ** More on the handlers: what they return and what they leave      *)
(* ------------------------------------------------------------------ *)

Lemma without_app (n : Node) (l l' : list Node) :
  without n (l ++ l')%list = (without n l ++ without n l')%list.
Proof. unfold without. apply filter_app. Qed.

Lemma without_idem (n : Node) (l : list Node) :
  without n (without n l) = without n l.
Proof.
  unfold without. induction l as [|m l IH]; simpl; [reflexivity|].
  destruct (Node_eqb n m) eqn:E; simpl; [exact IH|].
  now rewrite E, IH.
Qed.

Lemma without_absent (n : Node) (l : list Node) :
  ~ In n l -> without n l = l.
Proof.
  unfold without. induction l as [|m l IH]; simpl; intros H; [reflexivity|].
  destruct (Node_eqb n m) eqn:E.
  - apply Node_eqb_eq in E. subst. exfalso. apply H. now left.
  - simpl. f_equal. apply IH. intros Hin. apply H. now right.
Qed.

(** Appending a node that already is the last child changes nothing. *)
Lemma appendChild_again (n : Node) (l : list Node) :
  (without n (without n l ++ [n]) ++ [n])%list = (without n l ++ [n])%list.
Proof.
  rewrite without_app, without_idem. unfold without at 2. simpl.
  assert (E : Node_eqb n n = true) by now apply Node_eqb_eq.
  rewrite E. simpl. now rewrite app_nil_r.
Qed.

(** Whatever its outcome, [handleValueChange] leaves the bound value, the
    input, the dragging state, the clock and the timers alone. *)
Lemma handleValueChange_frame (s : State) :
  let s' := finalState (handleValueChange s) in
  rawValue s' = rawValue s /\ inputValue s' = inputValue s /\
  inputFiles s' = inputFiles s /\ dragging s' = dragging s /\
  clock s' = clock s /\ timers s' = timers s.
Proof.
  unfold handleValueChange, removeChild.
  destruct (rawValue s) as [file|] eqn:Hv.
  - destruct (contains FileIconNode
                (appendChild TextNode (set_textContent (name file) s)));
      cbn; rewrite Hv; repeat split.
  - destruct (contains TextNode
                (appendChild FileIconNode (set_textContent "" s)));
      cbn; rewrite Hv; repeat split.
Qed.

Lemma handleValueChange_normal_hides (s s' : State) :
  handleValueChange s = Normal s' -> warningHidden s'.
Proof.
  unfold handleValueChange, removeChild.
  destruct (rawValue s) as [file|].
  - destruct (contains FileIconNode
                (appendChild TextNode (set_textContent (name file) s)));
      cbn; intros [= <-]; split; reflexivity.
  - destruct (contains TextNode
                (appendChild FileIconNode (set_textContent "" s)));
      cbn; [intros [= <-]; split; reflexivity | discriminate].
Qed.

Section HandlerFacts.

Variable toLowerCase : string -> string.
Variable emits : option File -> option File -> bool.
Variable config : Config.

Lemma validateThenCommit_returns (file : File) (s : State) :
  exists s', validateThenCommit toLowerCase emits config file s = Normal s' /\
             dragging s' = dragging s.
Proof.
  destruct (isFileValid toLowerCase config file) eqn:E.
  - destruct (validateThenCommit_valid toLowerCase emits config file s E)
      as [s' [H [_ Hd]]].
    now exists s'.
  - rewrite (validateThenCommit_invalid toLowerCase emits config file s E).
    eexists. split; reflexivity.
Qed.

(** X6. Selecting, dropping and dragging never throw, whatever the state,
    the event, the configuration and the notification policy: [onFile],
    [onDrop], [onDragOver] and [onDragLeave] always return, and [onDrop]
    always returns with the dragging state inactive.  ([onDeleteClick] is
    the one handler an exception can leave.) *)
Theorem handlers_but_delete_always_return (ev : DomEvent) (s : State) :
  (exists s', onFile toLowerCase emits config s = Normal s') /\
  (exists s', onDrop toLowerCase emits config ev s = Normal s' /\
              dragging s' = false) /\
  (exists s', onDragOver s = Normal s' /\ dragging s' = true) /\
  (exists s', onDragLeave s = Normal s' /\ dragging s' = false).
Proof.
  repeat split.
  - unfold onFile. destruct (inputFiles s) as [[|file rest]|];
      try (now exists s).
    destruct (validateThenCommit_returns file s) as [s' [H _]]. now exists s'.
  - assert (Hnone : exists s', Normal s >>= (fun s0 =>
                      Normal (changeDraggingState false s0)) = Normal s' /\
                    dragging s' = false)
      by (eexists; split; reflexivity).
    unfold onDrop. destruct ev as [[[[fs|]]|]|]; try exact Hnone.
    cbn [files]. destruct (List.length fs =? 1); [|exact Hnone].
    destruct (nth_error fs 0) as [file|]; [|exact Hnone].
    destruct (validateThenCommit_returns file s) as [s' [H _]]. rewrite H.
    eexists. split; reflexivity.
  - eexists. split; reflexivity.
  - eexists. split; reflexivity.
Qed.

(** X8. When the host notifies the change, an accepted selection or an
    accepted single-file drop ends with the whole file view in place: the
    name as text, the text element attached, the icon gone, any earlier
    warning cleared and hidden, the delete button shown, the border unset;
    pending timers stay pending. *)
Theorem accepted_file_is_shown (file : File) (s : State) :
  isFileValid toLowerCase config file = true ->
  emits (rawValue s) (Some file) = true ->
  (forall rest, inputFiles s = Some (file :: rest) ->
     exists s', onFile toLowerCase emits config s = Normal s' /\
                rawValue s' = Some file /\ showsFile file s' /\
                timers s' = timers s) /\
  (exists s', onDrop toLowerCase emits config
                     (DragEvent (Some (mkDataTransfer (Some [file])))) s
              = Normal s' /\
              rawValue s' = Some file /\ showsFile file s' /\
              timers s' = timers s /\ dragging s' = false).
Proof.
  intros Hvalid Hemit.
  assert (Hcommit : exists s',
            validateThenCommit toLowerCase emits config file s = Normal s' /\
            rawValue s' = Some file /\ showsFile file s' /\
            timers s' = timers s).
  { unfold validateThenCommit, setRawValue. rewrite Hvalid, Hemit. simpl.
    destruct (handleValueChange_file (set_rawValue (Some file) s) file eq_refl)
      as [s' [H [Hv [Hshow [_ [_ [_ [_ Ht]]]]]]]].
    exists s'. split; [exact H|]. split; [exact Hv|].
    split; [exact Hshow | exact Ht]. }
  split.
  - intros rest Hin. unfold onFile. rewrite Hin. exact Hcommit.
  - unfold onDrop. cbn [files List.length Nat.eqb nth_error].
    destruct Hcommit as [s' [H [Hv [Hshow Ht]]]]. rewrite H.
    eexists. split; [reflexivity|]. repeat split; try assumption;
      apply Hshow.
Qed.

(** X9. With the text element attached and the change notified, deleting
    a bound file returns with the value [null], the whole empty layout in
    place (icon attached, text detached and cleared, warning hidden,
    delete button hidden, dashed border), the input's value empty and its
    file list emptied; a second click then changes nothing. *)
Theorem delete_restores_empty_layout (file : File) (s : State) :
  rawValue s = Some file -> In TextNode (containerChildren s) ->
  emits (Some file) None = true ->
  exists s', onDeleteClick emits s = Normal s' /\
             rawValue s' = None /\ showsEmpty s' /\
             inputValue s' = "" /\
             inputFiles s' = option_map (fun _ => []) (inputFiles s) /\
             onDeleteClick emits s' = Normal s'.
Proof.
  intros Hv Ht He. unfold onDeleteClick at 1. unfold setRawValue.
  rewrite Hv, He.
  destruct (handleValueChange_null_attached (set_rawValue None s) eq_refl Ht)
    as [s1 [H [Hv1 [Hshow [_ [Hfiles _]]]]]].
  rewrite H. eexists. split; [reflexivity|].
  split; [exact Hv1|]. split.
  - destruct Hshow as [H1 [H2 [H3 [_ [_ [H6 H7]]]]]].
    unfold showsEmpty. cbn. repeat split; assumption.
  - split; [reflexivity|]. split.
    + cbn. now rewrite Hfiles.
    + unfold onDeleteClick. cbn. now rewrite Hv1.
Qed.

End HandlerFacts.

Lemma accepted_file_is_shown_witness :
  exists s', onFile toLowerCaseAscii emitsOnChange pngOnly
                    (pick scan (showWarning (emptyLayout None))) = Normal s' /\
             rawValue s' = Some scan /\ showsFile scan s' /\
             timers s' = timers (pick scan (showWarning (emptyLayout None))).
Proof.
  destruct (accepted_file_is_shown toLowerCaseAscii emitsOnChange pngOnly scan
              (pick scan (showWarning (emptyLayout None))) eq_refl eq_refl)
    as [H _].
  exact (H [] eq_refl).
Defined.

Lemma delete_restores_empty_layout_witness :
  exists s', onDeleteClick emitsOnChange (fileLayout photo) = Normal s' /\
             rawValue s' = None /\ showsEmpty s' /\
             inputValue s' = "" /\
             inputFiles s' = Some [] /\
             onDeleteClick emitsOnChange s' = Normal s'.
Proof.
  apply (delete_restores_empty_layout emitsOnChange photo (fileLayout photo)).
  - reflexivity.
  - simpl. right; now left.
  - reflexivity.
Defined.

(** Two states with the same fields are the same state. *)
Lemma State_eq (a b : State) :
  rawValue a = rawValue b -> inputFiles a = inputFiles b ->
  inputValue a = inputValue b ->
  containerChildren a = containerChildren b ->
  textContent a = textContent b ->
  warningInnerHTML a = warningInnerHTML b ->
  warningDisplay a = warningDisplay b ->
  deleteButtonDisplay a = deleteButtonDisplay b ->
  containerBorder a = containerBorder b ->
  dragging a = dragging b -> clock a = clock b -> timers a = timers b ->
  a = b.
Proof.
  destruct a, b. simpl. intros. subst. reflexivity.
Qed.

(** A state that already shows its file, with the text element as last
    child, is a fixed point of [handleValueChange]. *)
Lemma handleValueChange_file_settled (s : State) (file : File) :
  rawValue s = Some file -> textContent s = name file ->
  (without TextNode (containerChildren s) ++ [TextNode])%list
    = containerChildren s ->
  ~ In FileIconNode (containerChildren s) ->
  warningHidden s ->
  deleteButtonDisplay s = "block" -> containerBorder s = "unset" ->
  handleValueChange s = Normal s.
Proof.
  intros Hv Ht Hch Hicon [Hw Hd] Hb Hbd.
  destruct s as [v fs iv ch tc wi wd dd cb dr ck tm]. simpl in *. subst.
  unfold handleValueChange. cbn [rawValue].
  assert (Hc : contains FileIconNode
                 (appendChild TextNode
                    (set_textContent (name file)
                       (mkState (Some file) fs iv ch (name file) "" "none"
                                "block" "unset" dr ck tm))) = false).
  { apply contains_false. rewrite appendChild_In. cbn.
    intros [E|E]; [discriminate | contradiction]. }
  rewrite Hc. unfold bind. f_equal.
  apply State_eq; cbn -[without app]; try reflexivity. exact Hch.
Qed.

Lemma reattach_text (ch : list Node) :
  let c1 := without FileIconNode (without TextNode ch ++ [TextNode])%list in
  (without TextNode c1 ++ [TextNode])%list = c1.
Proof.
  cbv zeta. rewrite without_app.
  change (without FileIconNode [TextNode]) with [TextNode].
  rewrite without_app.
  change (without TextNode [TextNode]) with (@nil Node).
  rewrite app_nil_r. f_equal. apply without_absent.
  rewrite !In_without. intros [[_ H] _]. now apply H.
Qed.

(** X7. With a file bound, a repeated notification is harmless: once
    [handleValueChange] has returned, running it again returns the very
    same state (where the [null] branch throws on its second run). *)
Theorem handleValueChange_file_idempotent (s s1 : State) :
  rawValue s <> None ->
  handleValueChange s = Normal s1 ->
  handleValueChange s1 = Normal s1.
Proof.
  intros Hv. destruct (rawValue s) as [file|] eqn:Ef; [clear Hv|contradiction].
  unfold handleValueChange at 1. rewrite Ef. unfold removeChild.
  destruct (contains FileIconNode
              (appendChild TextNode (set_textContent (name file) s))) eqn:Hc.
  - unfold bind. intros [= <-].
    apply handleValueChange_file_settled with (file := file);
      cbn -[without app]; try reflexivity; try (split; reflexivity).
    + exact Ef.
    + apply reattach_text.
    + rewrite In_without. intros [_ H]. now apply H.
  - cbn -[without app]. intros [= <-].
    apply contains_false in Hc. unfold appendChild in Hc.
    cbn [containerChildren set_containerChildren set_textContent] in Hc.
    apply handleValueChange_file_settled with (file := file);
      cbn -[without app]; try reflexivity; try (split; reflexivity).
    + exact Ef.
    + apply appendChild_again.
    + exact Hc.
Qed.

Lemma handleValueChange_file_idempotent_witness :
  handleValueChange (fileLayout photo) = Normal (fileLayout photo).
Proof.
  apply (handleValueChange_file_idempotent (fileLayout photo));
    [discriminate | reflexivity].
Defined.

(* ------------------------------------------------------------------ *)
(** ** Invariants along runs of the controller                         *)
(* ------------------------------------------------------------------ *)

Lemma layoutMatches_ext (s s' : State) :
  rawValue s' = rawValue s -> textContent s' = textContent s ->
  containerChildren s' = containerChildren s ->
  deleteButtonDisplay s' = deleteButtonDisplay s ->
  containerBorder s' = containerBorder s ->
  layoutMatches s -> layoutMatches s'.
Proof.
  unfold layoutMatches. intros -> -> -> -> ->. exact (fun H => H).
Qed.

Lemma dismissalPending_ext (s s' : State) :
  warningInnerHTML s' = warningInnerHTML s ->
  warningDisplay s' = warningDisplay s ->
  timers s' = timers s -> clock s' = clock s ->
  dismissalPending s -> dismissalPending s'.
Proof.
  unfold dismissalPending, warningHidden. intros -> -> -> ->.
  exact (fun H => H).
Qed.

Lemma showsFile_layout (file : File) (s : State) :
  rawValue s = Some file -> showsFile file s -> layoutMatches s.
Proof.
  intros Hv [H1 [H2 [H3 [_ [_ [H6 H7]]]]]]. unfold layoutMatches.
  rewrite Hv. repeat split; assumption.
Qed.

Lemma showsEmpty_layout (s : State) :
  rawValue s = None -> showsEmpty s -> layoutMatches s.
Proof.
  intros Hv [H1 [H2 [H3 [_ [_ [H6 H7]]]]]]. unfold layoutMatches.
  rewrite Hv. repeat split; assumption.
Qed.

(** Firing timers touches nothing but the warning. *)
Lemma fire_layout_fields (now : N) (q : list Timer) (s : State) :
  textContent (fire now q s) = textContent s /\
  containerChildren (fire now q s) = containerChildren s /\
  deleteButtonDisplay (fire now q s) = deleteButtonDisplay s /\
  containerBorder (fire now q s) = containerBorder s.
Proof.
  revert s. induction q as [|t q IH]; intros s; simpl; [repeat split|].
  destruct (IH (if due now t then runCallback (snd t) s else s))
    as [H1 [H2 [H3 H4]]].
  rewrite H1, H2, H3, H4.
  destruct (due now t); [destruct (snd t)|]; repeat split.
Qed.


Lemma elapse_layout (ms : N) (s : State) :
  layoutMatches s -> layoutMatches (elapse ms s).
Proof.
  unfold elapse, runTimers.
  destruct (fire_layout_fields (clock s + ms)
              (timers (set_clock (clock s + ms) s))
              (set_timers
                 (filter (fun t => negb (due (clock s + ms) t))
                         (timers (set_clock (clock s + ms) s)))
                 (set_clock (clock s + ms) s)))
    as [H1 [H2 [H3 H4]]].
  apply layoutMatches_ext; try assumption.
  now rewrite (proj2 (proj2 (fire_frame _ _ _))).
Qed.

Lemma elapse_dismissalPending (ms : N) (s : State) :
  dismissalPending s -> dismissalPending (elapse ms s).
Proof.
  intros [Hw Hb]. split.
  - destruct (existsb (due (clock s + ms)) (timers s)) eqn:E.
    + apply existsb_exists in E as [t [Hin Hdue]]. left.
      apply elapse_dismisses with (t := t); [exact Hin|].
      unfold due in Hdue. now apply N.leb_le.
    + assert (Hnone : forall t, In t (timers s) ->
                        due (clock s + ms) t = false).
      { intros t Hin. destruct (due (clock s + ms) t) eqn:D; [|reflexivity].
        assert (existsb (due (clock s + ms)) (timers s) = true)
          by (apply existsb_exists; now exists t).
        congruence. }
      destruct Hw as [Hw|Hne].
      * left. unfold warningHidden.
        destruct (elapse_keeps_warning ms s) as [-> ->]; [|exact Hw].
        intros t Hin. apply Hnone in Hin. unfold due in Hin.
        now apply N.leb_gt.
      * right. rewrite elapse_timers.
        destruct (timers s) as [|t q]; [contradiction|].
        simpl. rewrite (Hnone t (or_introl eq_refl)). discriminate.
  - intros t Hin. rewrite elapse_timers in Hin. apply filter_In in Hin as [Hin _].
    rewrite elapse_clock. apply Hb in Hin. lia.
Qed.

Lemma showWarning_dismissalPending (s : State) :
  dismissalPending s -> dismissalPending (showWarning s).
Proof.
  intros [_ Hb]. destruct (showWarning_fields s) as [_ [_ [Ht [Hc _]]]].
  split.
  - right. rewrite Ht. destruct (timers s); discriminate.
  - intros t Hin. rewrite Ht in Hin. rewrite Hc.
    apply in_app_or in Hin as [Hin|[<-|[]]]; [now apply Hb | cbn [fst]; lia].
Qed.

(** After a further 5000 ms nothing is left of a warning whose dismissal
    is pending. *)
Lemma dismissalPending_elapse_hides (s : State) :
  dismissalPending s -> warningHidden (elapse 5000 s).
Proof.
  intros [Hw Hb]. destruct (timers s) as [|t q] eqn:Et.
  - destruct Hw as [Hw|Hne]; [|contradiction].
    unfold warningHidden.
    destruct (elapse_keeps_warning 5000 s) as [-> ->]; [|exact Hw].
    intros t Hin. rewrite Et in Hin. contradiction.
  - apply elapse_dismisses with (t := t).
    + rewrite Et. now left.
    + apply Hb. now left.
Qed.

Section RunFacts.

Variable toLowerCase : string -> string.
Variable config : Config.

Section AnyPolicy.

Variable emits : option File -> option File -> bool.

(** Whatever its outcome, [setRawValue] stores the value and leaves the
    input, the dragging state, the clock and the timers alone. *)
Lemma setRawValue_frame (v : option File) (s : State) :
  let s' := finalState (setRawValue emits v s) in
  rawValue s' = v /\ inputValue s' = inputValue s /\
  inputFiles s' = inputFiles s /\ dragging s' = dragging s /\
  clock s' = clock s /\ timers s' = timers s.
Proof.
  unfold setRawValue. destruct (emits (rawValue s) v).
  - apply (handleValueChange_frame (set_rawValue v s)).
  - repeat split.
Qed.

Lemma setRawValue_dismissalPending (v : option File) (s s' : State) :
  setRawValue emits v s = Normal s' ->
  dismissalPending s -> dismissalPending s'.
Proof.
  intros H [Hw Hb].
  pose proof (setRawValue_frame v s) as Hf. rewrite H in Hf.
  destruct Hf as [_ [_ [_ [_ [Hc Ht]]]]]. simpl in Hc, Ht.
  unfold setRawValue in H. destruct (emits (rawValue s) v).
  - apply handleValueChange_normal_hides in H. split; [now left|].
    intros t Hin. rewrite Ht in Hin. rewrite Hc. now apply Hb.
  - injection H as <-. split; assumption.
Qed.

Lemma validateThenCommit_dismissalPending (file : File) (s s' : State) :
  validateThenCommit toLowerCase emits config file s = Normal s' ->
  dismissalPending s -> dismissalPending s'.
Proof.
  unfold validateThenCommit.
  destruct (isFileValid toLowerCase config file); simpl.
  - apply setRawValue_dismissalPending.
  - intros [= <-]. apply showWarning_dismissalPending.
Qed.

Lemma runAction_dismissalPending (a : Action) (s s' : State) :
  runAction toLowerCase emits config a s = Normal s' ->
  dismissalPending s -> dismissalPending s'.
Proof.
  destruct a as [h ev|file|ms|v]; simpl.
  - destruct h; simpl.
    + unfold onFile. destruct (inputFiles s) as [[|file rest]|];
        try (intros [= <-]; exact (fun H => H)).
      apply validateThenCommit_dismissalPending.
    + unfold onDrop.
      assert (Hkeep : forall s0, dismissalPending s0 ->
                dismissalPending (changeDraggingState false s0))
        by (intros s0; apply dismissalPending_ext; reflexivity).
      destruct ev as [[[[fs|]]|]|];
        try (intros [= <-]; apply Hkeep).
      cbn [files]. destruct (List.length fs =? 1);
        [|intros [= <-]; apply Hkeep].
      destruct (nth_error fs 0) as [file|]; [|intros [= <-]; apply Hkeep].
      destruct (validateThenCommit toLowerCase emits config file s)
        as [s1|e s1] eqn:E; [|discriminate].
      intros [= <-] Hp. apply Hkeep.
      exact (validateThenCommit_dismissalPending _ _ _ E Hp).
    + intros [= <-]. apply dismissalPending_ext; reflexivity.
    + intros [= <-]. apply dismissalPending_ext; reflexivity.
    + unfold onDeleteClick. destruct (rawValue s);
        [|intros [= <-]; exact (fun H => H)].
      destruct (setRawValue emits None s) as [s1|e s1] eqn:E; [|discriminate].
      intros [= <-] Hp.
      destruct (setRawValue_dismissalPending _ _ _ E Hp) as [_ Hb].
      split; [left; split; reflexivity | exact Hb].
  - intros [= <-]. apply dismissalPending_ext; reflexivity.
  - intros [= <-]. apply elapse_dismissalPending.
  - apply setRawValue_dismissalPending.
Qed.

(** X11. A warning never outlives its delay.  From a state whose warning
    has a dismissal pending (as when nothing is shown and no timer is
    set), after any run of events, selections, value changes and waits
    that returns, waiting 5000 ms more leaves the warning cleared and
    hidden. *)
Theorem warning_never_outlives_delay (acts : list Action) (s s' : State) :
  dismissalPending s ->
  runActions toLowerCase emits config acts s = Normal s' ->
  dismissalPending s' /\ warningHidden (elapse 5000 s').
Proof.
  revert s. induction acts as [|a acts IH]; intros s Hp H; simpl in H.
  - injection H as <-. split; [exact Hp|].
    now apply dismissalPending_elapse_hides.
  - destruct (runAction toLowerCase emits config a s) as [s1|e s1] eqn:E;
      [|discriminate].
    simpl in H. apply (IH s1); [|exact H].
    exact (runAction_dismissalPending _ _ _ E Hp).
Qed.

(** X12. No handler cancels or delays a timer or moves the clock: when a
    handler ends, by returning or by throwing, the queue is the one it
    found, with at most the one dismissal of a new warning appended. *)
Theorem handlers_never_cancel_timers (h : Handler) (ev : DomEvent) (s : State) :
  let s' := finalState (runHandler toLowerCase emits config h ev s) in
  clock s' = clock s /\
  (timers s' = timers s \/
   timers s' = (timers s ++ [((clock s + 5000)%N, DismissWarning)])%list).
Proof.
  assert (Hcommit : forall file,
    let s' := finalState (validateThenCommit toLowerCase emits config file s) in
    clock s' = clock s /\
    (timers s' = timers s \/
     timers s' = (timers s ++ [((clock s + 5000)%N, DismissWarning)])%list)).
  { intros file. unfold validateThenCommit.
    destruct (isFileValid toLowerCase config file); simpl.
    - destruct (setRawValue_frame (Some file) s) as [_ [_ [_ [_ [Hc Ht]]]]].
      split; [exact Hc | left; exact Ht].
    - split; [reflexivity | right; reflexivity]. }
  destruct h; simpl.
  - unfold onFile. destruct (inputFiles s) as [[|file rest]|];
      try (split; [reflexivity | left; reflexivity]).
    apply Hcommit.
  - unfold onDrop.
    destruct ev as [[[[fs|]]|]|];
      try (split; [reflexivity | left; reflexivity]).
    cbn [files]. destruct (List.length fs =? 1);
      [|split; [reflexivity | left; reflexivity]].
    destruct (nth_error fs 0) as [file|];
      [|split; [reflexivity | left; reflexivity]].
    specialize (Hcommit file). cbv zeta in Hcommit.
    destruct (validateThenCommit toLowerCase emits config file s);
      exact Hcommit.
  - split; [reflexivity | left; reflexivity].
  - split; [reflexivity | left; reflexivity].
  - unfold onDeleteClick. destruct (rawValue s);
      [|split; [reflexivity | left; reflexivity]].
    destruct (setRawValue_frame None s) as [_ [_ [_ [_ [Hc Ht]]]]].
    destruct (setRawValue emits None s); simpl in *;
      (split; [exact Hc | left; exact Ht]).
Qed.

End AnyPolicy.

(** Under the host's default policy a value set on a state whose layout
    matches returns normally with the layout matching the new value. *)
Lemma setRawValue_layout (v : option File) (s : State) :
  layoutMatches s ->
  exists s', setRawValue emitsOnChange v s = Normal s' /\
             rawValue s' = v /\ layoutMatches s'.
Proof.
  intros Hl. unfold setRawValue.
  destruct (emitsOnChange (rawValue s) v) eqn:He.
  - destruct v as [file|].
    + destruct (handleValueChange_file (set_rawValue (Some file) s) file eq_refl)
        as [s' [H [Hv [Hshow _]]]].
      exists s'. repeat split; try assumption.
      now apply showsFile_layout with (file := file).
    + unfold layoutMatches in Hl.
      destruct (rawValue s) as [old|] eqn:Hold; [|discriminate].
      destruct Hl as [_ [Ht _]].
      destruct (handleValueChange_null_attached (set_rawValue None s) eq_refl Ht)
        as [s' [H [Hv [Hshow _]]]].
      exists s'. repeat split; try assumption.
      now apply showsEmpty_layout.
  - eexists. split; [reflexivity|]. split; [reflexivity|].
    unfold layoutMatches in *. cbn.
    destruct (rawValue s) as [old|], v as [file|]; try discriminate.
    + simpl in He. apply negb_false_iff, File_eqb_eq in He. now subst.
    + exact Hl.
Qed.

Lemma runAction_layout (a : Action) (s : State) :
  layoutMatches s ->
  exists s', runAction toLowerCase emitsOnChange config a s = Normal s' /\
             layoutMatches s'.
Proof.
  intros Hl.
  assert (Hcommit : forall file,
            exists s', validateThenCommit toLowerCase emitsOnChange config
                                          file s = Normal s' /\
                       layoutMatches s').
  { intros file. unfold validateThenCommit.
    destruct (isFileValid toLowerCase config file); simpl.
    - destruct (setRawValue_layout (Some file) s Hl) as [s' [H [_ Hl']]].
      now exists s'.
    - eexists. split; [reflexivity|].
      revert Hl. apply layoutMatches_ext; reflexivity. }
  destruct a as [h ev|file|ms|v]; simpl.
  - destruct h; simpl.
    + unfold onFile. destruct (inputFiles s) as [[|file rest]|];
        [now exists s | apply Hcommit | now exists s].
    + unfold onDrop.
      assert (Hnone : exists s', Normal s >>= (fun s0 =>
                        Normal (changeDraggingState false s0)) = Normal s' /\
                      layoutMatches s').
      { eexists. split; [reflexivity|].
        revert Hl. apply layoutMatches_ext; reflexivity. }
      destruct ev as [[[[fs|]]|]|]; try exact Hnone.
      cbn [files]. destruct (List.length fs =? 1); [|exact Hnone].
      destruct (nth_error fs 0) as [file|]; [|exact Hnone].
      destruct (Hcommit file) as [s' [H Hl']]. rewrite H.
      eexists. split; [reflexivity|].
      revert Hl'. apply layoutMatches_ext; reflexivity.
    + eexists. split; [reflexivity|].
      revert Hl. apply layoutMatches_ext; reflexivity.
    + eexists. split; [reflexivity|].
      revert Hl. apply layoutMatches_ext; reflexivity.
    + unfold onDeleteClick. destruct (rawValue s) as [file|] eqn:Hv.
      * destruct (setRawValue_layout None s Hl) as [s' [H [_ Hl']]].
        rewrite H. eexists. split; [reflexivity|].
        revert Hl'. apply layoutMatches_ext; reflexivity.
      * now exists s.
  - eexists. split; [reflexivity|].
    revert Hl. apply layoutMatches_ext; reflexivity.
  - eexists. split; [reflexivity|]. now apply elapse_layout.
  - destruct (setRawValue_layout v s Hl) as [s' [H [_ Hl']]]. now exists s'.
Qed.

(** X10. Under the host's default notification policy the layout follows
    the value for good.  From a state whose container, text, delete
    button and border match the bound value, every run of events on the
    five handlers, selections in the dialog, value changes by other code
    and waits returns without an exception and ends in a state where they
    match again. *)
Theorem runs_keep_layout (acts : list Action) (s : State) :
  layoutMatches s ->
  exists s', runActions toLowerCase emitsOnChange config acts s = Normal s' /\
             layoutMatches s'.
Proof.
  revert s. induction acts as [|a acts IH]; intros s Hl; simpl.
  - now exists s.
  - destruct (runAction_layout a s Hl) as [s1 [H Hl1]]. rewrite H. simpl.
    now apply IH.
Qed.

End RunFacts.

Lemma runs_keep_layout_witness :
  exists s',
    runActions toLowerCaseAscii emitsOnChange pngOnly
      [Pick notes; Dispatch OnFile OtherEvent;
       Pick photo; Dispatch OnFile OtherEvent; Wait 6000;
       Dispatch OnDrop (DragEvent (Some (mkDataTransfer (Some [scan]))));
       Dispatch OnDeleteClick OtherEvent; SetValue None]
      (emptyLayout None) = Normal s' /\
    layoutMatches s'.
Proof.
  apply (runs_keep_layout toLowerCaseAscii pngOnly).
  unfold layoutMatches. simpl. repeat split.
  - right; now left.
  - intros [E|[E|[]]]; discriminate.
Defined.

Lemma warning_never_outlives_delay_witness :
  warningHidden
    (elapse 5000
       (finalState
          (runActions toLowerCaseAscii emitsOnChange pngOnly
             [Pick notes; Dispatch OnFile OtherEvent; Wait 4000;
              Dispatch OnFile OtherEvent; Wait 2000]
             (emptyLayout None)))).
Proof.
  refine (proj2 (warning_never_outlives_delay toLowerCaseAscii pngOnly
                   emitsOnChange
                   [Pick notes; Dispatch OnFile OtherEvent; Wait 4000;
                    Dispatch OnFile OtherEvent; Wait 2000]
                   (emptyLayout None) _ _ _)).
  - split; [left; split; reflexivity | intros t []].
  - vm_compute. reflexivity.
Defined.


(** X14. On the elements of a new view the constructor wires each event
    to its handler and to nothing else: ['change'] on the input runs
    [onFile], ['drop'], ['dragover'] and ['dragleave'] on the root element
    run [onDrop], [onDragOver] and [onDragLeave], ['click'] on the delete
    button runs [onDeleteClick]; once the disposal callback has run, the
    first four events reach no handler. *)
Theorem construction_wires_events (toLowerCase : string -> string)
    (emits : option File -> option File -> bool) (config : Config)
    (ev : DomEvent) (s : State) :
  let bound := bindListeners [] in
  let disposed := disposeCallback bound in
  let dispatch := dispatchEvent toLowerCase emits config in
  (dispatch bound ViewInput "change" ev s
     = finalState (onFile toLowerCase emits config s) /\
   dispatch bound ViewElement "drop" ev s
     = finalState (onDrop toLowerCase emits config ev s) /\
   dispatch bound ViewElement "dragover" ev s = finalState (onDragOver s) /\
   dispatch bound ViewElement "dragleave" ev s = finalState (onDragLeave s) /\
   dispatch bound ViewDeleteButton "click" ev s
     = finalState (onDeleteClick emits s)) /\
  (dispatch disposed ViewInput "change" ev s = s /\
   dispatch disposed ViewElement "drop" ev s = s /\
   dispatch disposed ViewElement "dragover" ev s = s /\
   dispatch disposed ViewElement "dragleave" ev s = s).
Proof. repeat split. Qed.

(** X15. Several files at once: a selection takes the first file of the
    input's list and ignores the others, a drop takes none.  With the
    first of several files acceptable, [onFile] binds it, while [onDrop]
    of the same list leaves the bound value as it was. *)
Theorem several_files_first_or_none (toLowerCase : string -> string)
    (emits : option File -> option File -> bool) (config : Config)
    (file other : File) (rest : list File) (s : State) :
  isFileValid toLowerCase config file = true ->
  inputFiles s = Some (file :: other :: rest) ->
  (exists s', onFile toLowerCase emits config s = Normal s' /\
              rawValue s' = Some file) /\
  onDrop toLowerCase emits config
         (DragEvent (Some (mkDataTransfer (Some (file :: other :: rest))))) s
  = Normal (changeDraggingState false s).
Proof.
  intros Hvalid Hin. split.
  - unfold onFile. rewrite Hin.
    destruct (validateThenCommit_valid toLowerCase emits config file s Hvalid)
      as [s' [H [Hv _]]].
    now exists s'.
  - reflexivity.
Qed.

Lemma several_files_first_or_none_witness :
  (exists s', onFile toLowerCaseAscii emitsOnChange pngOnly
                     (set_input (Some [photo; notes]) (fakepath photo)
                                (emptyLayout None)) = Normal s' /\
              rawValue s' = Some photo) /\
  onDrop toLowerCaseAscii emitsOnChange pngOnly
         (DragEvent (Some (mkDataTransfer (Some [photo; notes]))))
         (set_input (Some [photo; notes]) (fakepath photo) (emptyLayout None))
  = Normal (changeDraggingState false
              (set_input (Some [photo; notes]) (fakepath photo)
                         (emptyLayout None))).
Proof.
  exact (several_files_first_or_none toLowerCaseAscii emitsOnChange pngOnly
           photo notes []
           (set_input (Some [photo; notes]) (fakepath photo) (emptyLayout None))
           eq_refl eq_refl).
Defined.

